(** * Blood bank ledger: the document store and the inventory ledger

    A shallow embedding of [Database], [Inventory], [Donor.donate],
    [Patient.request_blood] and of the two form handlers of the Streamlit
    front end, followed by the properties of the ledger engine.

    The persisted document is whatever [json.load] returns, so the document
    is modelled as an untyped JSON value and every Python primitive the code
    applies to it ([in], [d[k]], [d[k] = v], [.get], [.setdefault],
    [.append], [+], [-], [>]) is modelled with the exception it raises on a
    value of the wrong shape.  JSON numbers with a fraction or an exponent
    are not part of the model (the program never writes one).  The clock is
    not part of the state: a method that reads it takes the reading as an
    argument.  [get_amount] and [list_inventory] only read the document and
    are used for display; they are not modelled. *)

From stdpp Require Import gmap strings list fin_maps pretty.

#[local] Set Warnings "-register-all".
#[local] Open Scope string_scope.
#[local] Open Scope Z_scope.

(** ** JSON values *)

Inductive json :=
  | JNull
  | JBool (b : bool)
  | JInt (z : Z)
  | JStr (s : string)
  | JArr (l : list json)
  | JObj (m : gmap string json).

(** The Python exceptions the modelled code can raise on a document of the
    wrong shape. *)
Inductive exn := KeyError | TypeError | AttributeError.

(** The file at [self.path] as [load] sees it: absent
    ([os.path.exists] is false), present with a content on which
    [json.load] raises [JSONDecodeError], or present with a content that
    [json.load] decodes to [v]. *)
Inductive file :=
  | Missing
  | Corrupt
  | Stored (v : json).

(** [Database]: the in-memory document [self.data] and the file behind
    [self.path]. *)
Record Database := mkDatabase { data : json; disk : file }.

(** ** A state-and-exception monad for the methods *)

Inductive result (A : Type) :=
  | Ok (a : A) (db : Database)
  | Raised (e : exn) (db : Database).
Arguments Ok {A} a db.
Arguments Raised {A} e db.

Definition M (A : Type) : Type := Database → result A.

Definition ret {A} (a : A) : M A := λ db, Ok a db.

Definition bind {A B} (m : M A) (k : A → M B) : M B :=
  λ db, match m db with
        | Ok a db' => k a db'
        | Raised e db' => Raised e db'
        end.

Definition raise {A} (e : exn) : M A := λ db, Raised e db.

Definition lift {A} (r : exn + A) : M A :=
  match r with inl e => raise e | inr a => ret a end.

Definition get_data : M json := λ db, Ok (data db) db.

Definition set_data (v : json) : M unit :=
  λ db, Ok tt {| data := v; disk := disk db |}.

Notation "'let*' x := m 'in' k" := (bind m (λ x, k))
  (at level 10, x name, m at level 100, k at level 200).
Notation "'do' m 'then' k" := (bind m (λ _, k))
  (at level 10, m at level 100, k at level 200).

(** The database a call leaves behind, whether it returned or raised. *)
Definition state_of {A} (r : result A) : Database :=
  match r with Ok _ db => db | Raised _ db => db end.

(** ** Python primitives on JSON values *)

(** [v == key] for a [str] key. *)
Definition is_str (key : string) (v : json) : bool :=
  match v with JStr s => bool_decide (s = key) | _ => false end.

(** [key in v] for a [str] key: key lookup on a dict, element equality on a
    list, substring test on a string, [TypeError] on the rest. *)
Definition py_contains (key : string) (v : json) : exn + bool :=
  match v with
  | JObj m => inr (bool_decide (is_Some (m !! key)))
  | JArr l => inr (existsb (is_str key) l)
  | JStr s => inr (bool_decide (is_Some (String.index 0 key s)))
  | _ => inl TypeError
  end.

(** [v[key] = x] for a [str] key. *)
Definition py_setitem (key : string) (x : json) (v : json) : exn + json :=
  match v with
  | JObj m => inr (JObj (<[key := x]> m))
  | _ => inl TypeError
  end.

(** [v[key]] for a [str] key. *)
Definition py_getitem (key : string) (v : json) : exn + json :=
  match v with
  | JObj m => match m !! key with Some x => inr x | None => inl KeyError end
  | _ => inl TypeError
  end.

(** [v.get(key, dflt)]. *)
Definition py_get (key : string) (dflt : json) (v : json) : exn + json :=
  match v with
  | JObj m => inr (default dflt (m !! key))
  | _ => inl AttributeError
  end.

(** An operand of [+], [-] or [>] against an [int]: an [int], or a [bool]
    (a subclass of [int] in Python); anything else is a [TypeError]. *)
Definition as_int (v : json) : exn + Z :=
  match v with
  | JInt z => inr z
  | JBool b => inr (Z.b2z b)
  | _ => inl TypeError
  end.

(** [str(z)] for an [int], as an f-string formats it. *)
Definition str_int (z : Z) : string := pretty z.

(** ** Database *)

Definition default_inventory : gmap string json :=
  <["A+" := JInt 2000]> (<["A-" := JInt 2000]> (<["B+" := JInt 2000]>
  (<["B-" := JInt 2000]> (<["AB+" := JInt 2000]> (<["AB-" := JInt 2000]>
  (<["O+" := JInt 2000]> (<["O-" := JInt 2000]> ∅))))))).

(** [Database.save]: the file now decodes to the document. *)
Definition save : M unit :=
  λ db, Ok tt {| data := data db; disk := Stored (data db) |}.

(** One [if key not in self.data: self.data[key] = value; changed = True]
    step of [ensure_structure]. *)
Definition ensure_key (key : string) (value : json) (changed : bool) : M bool :=
  let* d := get_data in
  let* present := lift (py_contains key d) in
  if present then ret changed
  else
    let* d' := lift (py_setitem key value d) in
    do set_data d' then
    ret true.

Definition ensure_structure : M unit :=
  let* changed := ensure_key "inventory" (JObj default_inventory) false in
  let* changed := ensure_key "donors" (JArr []) changed in
  let* changed := ensure_key "patients" (JArr []) changed in
  let* changed := ensure_key "logs" (JArr []) changed in
  if changed then save else ret tt.

Definition load : M unit :=
  λ db,
    match disk db with
    | Missing => (do set_data (JObj ∅) then ensure_structure) db
    | Corrupt => (do set_data (JObj ∅) then ensure_structure) db
    | Stored v => (do set_data v then ensure_structure) db
    end.

(** [Database.__init__]: [self.data = {}] then [self.load()]. *)
Definition Database_init (f : file) : result unit :=
  load {| data := JObj ∅; disk := f |}.

(** [self.data.setdefault(key, []).append(x)]. *)
Definition setdefault_append (key : string) (x : json) : M unit :=
  let* d := get_data in
  match d with
  | JObj m =>
      match m !! key with
      | None => set_data (JObj (<[key := JArr [x]]> m))
      | Some (JArr l) => set_data (JObj (<[key := JArr (l ++ [x])]> m))
      | Some _ => raise AttributeError
      end
  | _ => raise AttributeError
  end.

(** [Database.log]; [timestamp] is what
    [datetime.now().isoformat(sep=" ", timespec="seconds")] returns at the
    call. *)
Definition log (timestamp entry : string) : M unit :=
  do setdefault_append "logs" (JStr (timestamp ++ " - " ++ entry)) then
  save.

(** ** Inventory *)

Definition VALID_TYPES : gset string :=
  {[ "A+"; "A-"; "B+"; "B-"; "AB+"; "AB-"; "O+"; "O-" ]}.

Definition valid_type (btype : string) : bool :=
  bool_decide (btype ∈ VALID_TYPES).

Definition _get_inventory : M json :=
  let* d := get_data in lift (py_getitem "inventory" d).

(** [inv[btype] = JInt q] where [inv] is the dict [_get_inventory]
    returned, which is the object stored under ["inventory"]: the write
    shows in the document. *)
Definition inventory_setitem (btype : string) (q : Z) : M unit :=
  let* d := get_data in
  let* inv := lift (py_getitem "inventory" d) in
  let* inv' := lift (py_setitem btype (JInt q) inv) in
  let* d' := lift (py_setitem "inventory" inv' d) in
  set_data d'.

Definition add_blood (btype : string) (amount : Z) (timestamp : string)
  : M bool :=
  if negb (valid_type btype) || bool_decide (amount ≤ 0) then ret false
  else
    let* inv := _get_inventory in
    let* current := lift (py_get btype (JInt 0) inv) in
    let* current := lift (as_int current) in
    do inventory_setitem btype (current + amount) then
    do save then
    do log timestamp
      ("Added " ++ str_int amount ++ "ml to " ++ btype
       ++ " (new: " ++ str_int (current + amount) ++ " ml)") then
    ret true.

Definition remove_blood (btype : string) (amount : Z) (timestamp : string)
  : M bool :=
  if negb (valid_type btype) || bool_decide (amount ≤ 0) then ret false
  else
    let* inv := _get_inventory in
    let* current := lift (py_get btype (JInt 0) inv) in
    let* current := lift (as_int current) in
    if bool_decide (amount > current) then ret false
    else
      do inventory_setitem btype (current - amount) then
      do save then
      do log timestamp
        ("Removed " ++ str_int amount ++ "ml from " ++ btype
         ++ " (remaining: " ++ str_int (current - amount) ++ " ml)") then
      ret true.

(** ** Donor and Patient (command-line front end) *)

(** [f"{z:0wd}"]: sign-aware zero padding to [w] characters. *)
Definition fmt_0d (w : nat) (z : Z) : string :=
  let sign := if bool_decide (z < 0) then "-" else "" in
  let digits := pretty (Z.to_N (Z.abs z)) in
  let zeros :=
    String.concat ""
      (replicate (w - String.length sign - String.length digits)%nat "0") in
  sign ++ zeros ++ digits.

Definition fmt_date (year month day : Z) : string :=
  fmt_0d 4 year ++ "-" ++ fmt_0d 2 month ++ "-" ++ fmt_0d 2 day.

(** The dict literal both front ends build for a donation. *)
Definition donor_rec (name email : string) (age id : Z) (phone : string)
    (donated_amount : Z) (blood_type donation_date : string) : json :=
  JObj (list_to_map
    [ ("name", JStr name); ("email", JStr email); ("age", JInt age);
      ("id", JInt id); ("phone", JStr phone);
      ("donated_amount", JInt donated_amount);
      ("blood_type", JStr blood_type);
      ("donation_date", JStr donation_date) ]).

(** The dict literal both front ends build for a request. *)
Definition patient_rec (name email : string) (age id : Z) (phone : string)
    (required_amount : Z) (blood_type request_date : string) : json :=
  JObj (list_to_map
    [ ("name", JStr name); ("email", JStr email); ("age", JInt age);
      ("id", JInt id); ("phone", JStr phone);
      ("required_amount", JInt required_amount);
      ("blood_type", JStr blood_type);
      ("request_date", JStr request_date) ]).

Module Donor.

(** The attributes of a [Donor] that [donate] reads. *)
Record t := mk {
  name : string; email : string; age : Z; id : Z; phone : string;
  day : Z; month : Z; year : Z; donated_amount : Z }.

(** The record [donate] builds once [self.blood_type] is [bt]. *)
Definition record (self : t) (bt : string) : json :=
  donor_rec (name self) (email self) (age self) (id self) (phone self)
    (donated_amount self) bt (fmt_date (year self) (month self) (day self)).

(** [Donor.donate]; [bt] is the stripped line read by [input], which the
    method stores in [self.blood_type] before it builds the record.  The
    [print] calls (and the [get_amount] read inside one) are left out. *)
Definition donate (self : t) (bt : string) (timestamp : string) : M bool :=
  if negb (valid_type bt) then ret false
  else
    let* ok := add_blood bt (donated_amount self) timestamp in
    if ok then
      do setdefault_append "donors" (record self bt) then
      do save then
      ret true
    else ret false.

End Donor.

Module Patient.

(** The attributes of a [Patient] that [request_blood] reads. *)
Record t := mk {
  name : string; email : string; age : Z; id : Z; phone : string;
  blood_type : string; required_amount : Z }.

(** The record [request_blood] builds; [today] is what
    [datetime.now().strftime("%Y-%m-%d")] returns at that point. *)
Definition record (self : t) (today : string) : json :=
  patient_rec (name self) (email self) (age self) (id self) (phone self)
    (required_amount self) (blood_type self) today.

(** [Patient.request_blood]; the [print] calls are left out. *)
Definition request_blood (self : t) (timestamp today : string) : M bool :=
  let bt := blood_type self in
  let* success := remove_blood bt (required_amount self) timestamp in
  if success then
    do setdefault_append "patients" (record self today) then
    do save then
    ret true
  else ret false.

End Patient.

(** ** The form handlers of the Streamlit front end *)

(** [try: body except Exception: handler]. *)
Definition try_except {A} (body : M A) (handler : exn → M A) : M A :=
  λ db, match body db with
        | Ok a db' => Ok a db'
        | Raised e db' => handler e db'
        end.

(** The branch a form handler ends in.  The message it shows there, and
    the [get_amount] read inside that message, are left out: they change
    nothing in the database. *)
Inductive shown := ShownSuccess | ShownFailure | ShownMissingFields | ShownError.

(** Truth value of a [str]: non-empty. *)
Definition truthy (s : string) : bool :=
  match s with EmptyString => false | _ => true end.

(** The body of [if st.button("Complete Donation"):]. *)
Definition complete_donation (donor_name donor_email : string)
    (donor_age donor_id : Z) (donor_phone : string) (donation_amount : Z)
    (donation_day donation_month donation_year : Z) (blood_type : string)
    (timestamp : string) : M shown :=
  try_except
    (if truthy donor_name && truthy donor_email then
       let* ok := add_blood blood_type donation_amount timestamp in
       if ok then
         do setdefault_append "donors"
              (donor_rec donor_name donor_email donor_age donor_id
                 donor_phone donation_amount blood_type
                 (fmt_date donation_year donation_month donation_day)) then
         do save then
         ret ShownSuccess
       else ret ShownFailure
     else ret ShownMissingFields)
    (λ _, ret ShownError).

(** The body of [if st.button("Request Blood"):]. *)
Definition request_blood_button (patient_name patient_email : string)
    (patient_age patient_id : Z) (patient_phone : string)
    (patient_blood_type : string) (required_amount : Z)
    (timestamp today : string) : M shown :=
  try_except
    (if truthy patient_name && truthy patient_email then
       let* ok := remove_blood patient_blood_type required_amount timestamp in
       if ok then
         do setdefault_append "patients"
              (patient_rec patient_name patient_email patient_age patient_id
                 patient_phone required_amount patient_blood_type today) then
         do save then
         ret ShownSuccess
       else ret ShownFailure
     else ret ShownMissingFields)
    (λ _, ret ShownError).

(** ** Observations used in the statements *)

(** The value [add_blood] and [remove_blood] compute as the current stock
    of [btype]: [self.db.data["inventory"].get(btype, 0)] read as an
    integer; [None] when the read raises. *)
Definition current_quantity (btype : string) (db : Database) : option Z :=
  match (let* inv := _get_inventory in
         let* current := lift (py_get btype (JInt 0) inv) in
         lift (as_int current)) db with
  | Ok q _ => Some q
  | Raised _ _ => None
  end.

(** The value stored under a top-level key of the document. *)
Definition top (key : string) (db : Database) : option json :=
  match data db with JObj m => m !! key | _ => None end.

(** The list [self.data.setdefault(key, [])] evaluates to, when it is one. *)
Definition sequence (key : string) (db : Database) : option (list json) :=
  match data db with
  | JObj m =>
      match m !! key with
      | None => Some []
      | Some (JArr l) => Some l
      | Some _ => None
      end
  | _ => None
  end.

(** The dict stored under ["inventory"], when it is one. *)
Definition inventory (db : Database) : option (gmap string json) :=
  match top "inventory" db with Some (JObj inv) => Some inv | _ => None end.

(** ** Runs of ledger operations *)

Inductive ledger_op :=
  | Credit (btype : string) (amount : Z) (timestamp : string)
  | Debit (btype : string) (amount : Z) (timestamp : string).

Definition run_op (o : ledger_op) : M bool :=
  match o with
  | Credit btype amount timestamp => add_blood btype amount timestamp
  | Debit btype amount timestamp => remove_blood btype amount timestamp
  end.

(** The database after a sequence of calls, each run on what the previous
    one left behind. *)
Fixpoint run_ops (os : list ledger_op) (db : Database) : Database :=
  match os with
  | [] => db
  | o :: os' => run_ops os' (state_of (run_op o db))
  end.

(** A freshly defaulted document: [ensure_structure] on the empty document,
    whatever the file held. *)
Definition fresh (f : file) : Database :=
  state_of (ensure_structure {| data := JObj ∅; disk := f |}).

(** The four top-level collections of a document. *)
Definition top_level_keys : list string :=
  ["inventory"; "donors"; "patients"; "logs"].

(** The document is a dict with a value under each of the four keys. *)
Definition has_collections (db : Database) : Prop :=
  Forall (λ key, is_Some (top key db)) top_level_keys.

(** The document [ensure_structure] builds from the empty one. *)
Definition default_document : json :=
  JObj (<["logs" := JArr []]> (<["patients" := JArr []]>
       (<["donors" := JArr []]> (<["inventory" := JObj default_inventory]> ∅)))).

(** The value stored for [btype] in the inventory dict. *)
Definition entry (btype : string) (db : Database) : option json :=
  inv ← inventory db; inv !! btype.

(** What a ledger call on [btype] may change between [db] and [db']: the
    inventory entry of [btype], and the logs by appending. *)
Definition frame_kept (btype : string) (db db' : Database) : Prop :=
  (∀ t, t ≠ btype → entry t db' = entry t db)
  ∧ top "donors" db' = top "donors" db
  ∧ top "patients" db' = top "patients" db
  ∧ (∀ key, key ≠ "inventory" → key ≠ "logs" → top key db' = top key db)
  ∧ ∃ suffix : list json,
      sequence "logs" db' = (λ l, (l ++ suffix)%list) <$> sequence "logs" db.

(** What [ensure_structure] stores under a key the document lacks. *)
Definition default_collection (key : string) : option json :=
  if decide (key = "inventory") then Some (JObj default_inventory)
  else if decide (key ∈ ["donors"; "patients"; "logs"]) then Some (JArr [])
  else None.

(** The invariant of the ledger: the document is a dict whose inventory is
    a dict over exactly the eight blood types, each with a non-negative
    integer, and whose logs can be appended to. *)
Definition ledger_inv (db : Database) : Prop :=
  ∃ m inv,
    data db = JObj m ∧ m !! "inventory" = Some (JObj inv)
    ∧ is_Some (sequence "logs" db)
    ∧ dom inv = VALID_TYPES
    ∧ ∀ t, t ∈ VALID_TYPES → ∃ q, inv !! t = Some (JInt q) ∧ 0 ≤ q.

(** [m] with [value] stored under [key] unless [key] is taken: the
    dict after one step of [ensure_structure]. *)
Definition fill (key : string) (value : json) (m : gmap string json)
  : gmap string json :=
  match m !! key with Some _ => m | None => <[key := value]> m end.

(** The dict [ensure_structure] leaves behind when it starts from [m]. *)
Definition filled (m : gmap string json) : gmap string json :=
  fill "logs" (JArr []) (fill "patients" (JArr [])
    (fill "donors" (JArr []) (fill "inventory" (JObj default_inventory) m))).

(** [rec] was appended to the sequence under [key] between [db] and
    [db']. *)
Definition appended (key : string) (rec : json) (db db' : Database) : Prop :=
  ∃ l, sequence key db = Some l ∧ sequence key db' = Some (l ++ [rec])%list.

(** A donor used to run the flows on a concrete input. *)
Definition sample_donor : Donor.t :=
  Donor.mk "Amal" "amal@example.org" 34 17 "0100" 5 3 2025 300.

From stdpp Require sorting.

(** ** Console input (command-line front end) *)

(** A line typed at a prompt, as the code uses it: [text] is
    [input(...).strip()] and [int_value] is what [int(...)] makes of it,
    [None] when it raises [ValueError]. *)
Record line := mkLine { text : string; int_value : option Z }.

(** A method that reads the console takes the lines still to come and
    returns its result with the lines it left; [None] is the [EOFError] of
    [input] when no line is left. *)
Definition console (A : Type) : Type := list line → option (A * list line).

(** [datetime(y, m, d)] returns (rather than raising [ValueError] or
    [OverflowError]) exactly on a date of the proleptic Gregorian calendar
    with a year from 1 to 9999. *)
Definition is_leap (y : Z) : bool :=
  bool_decide (y `mod` 4 = 0)
  && (negb (bool_decide (y `mod` 100 = 0)) || bool_decide (y `mod` 400 = 0)).

Definition days_in_month (y m : Z) : Z :=
  if bool_decide (m = 2) then (if is_leap y then 29 else 28)
  else if bool_decide (m ∈ [4; 6; 9; 11]) then 30
  else 31.

Definition datetime_ok (y m d : Z) : bool :=
  bool_decide (1 ≤ y ≤ 9999) && bool_decide (1 ≤ m ≤ 12)
  && bool_decide (1 ≤ d ≤ days_in_month y m).

Module Staff.

(** The attributes [input_basic] sets. *)
Record t := mk { name : string; email : string; age : Z; id : Z }.

(** The [while True] loop that reads the age: the first line that is an
    integer from 18 to 65. *)
Fixpoint read_age (ins : list line) : option (Z * list line) :=
  match ins with
  | [] => None
  | l :: ins' =>
      match int_value l with
      | Some age =>
          if bool_decide (18 ≤ age ≤ 65) then Some (age, ins')
          else read_age ins'
      | None => read_age ins'
      end
  end.

(** The [while True] loop that reads the ID: the first line that is an
    integer. *)
Fixpoint read_id (ins : list line) : option (Z * list line) :=
  match ins with
  | [] => None
  | l :: ins' =>
      match int_value l with
      | Some id => Some (id, ins')
      | None => read_id ins'
      end
  end.

(** [Staff.input_basic]. *)
Definition input_basic : console t :=
  λ ins,
    match ins with
    | name :: email :: ins' =>
        '(age, ins') ← read_age ins';
        '(id, ins') ← read_id ins';
        Some (mk (text name) (text email) age id, ins')
    | _ => None
    end.

End Staff.

(** [Donor.input_donor] on a new [Donor]: [input_basic], then the phone
    number; the other attributes keep the 0 of [__init__]. *)
Definition input_donor : console Donor.t :=
  λ ins,
    '(s, ins) ← Staff.input_basic ins;
    match ins with
    | phone :: ins' =>
        Some (Donor.mk (Staff.name s) (Staff.email s) (Staff.age s)
                (Staff.id s) (text phone) 0 0 0 0, ins')
    | [] => None
    end.

(** The first loop of [Donor.donation_data]: the first line that is an
    integer from 50 to 500. *)
Fixpoint read_donated_amount (ins : list line) : option (Z * list line) :=
  match ins with
  | [] => None
  | l :: ins' =>
      match int_value l with
      | Some amount =>
          if bool_decide (50 ≤ amount ≤ 500) then Some (amount, ins')
          else read_donated_amount ins'
      | None => read_donated_amount ins'
      end
  end.

(** The second loop of [Donor.donation_data]: day, month and year are read
    in turn; a line that is no integer, or a triple that is no date, starts
    the loop again with the next line. *)
Fixpoint read_date (ins : list line) : option (Z * Z * Z * list line) :=
  match ins with
  | [] => None
  | ld :: ins1 =>
      match int_value ld with
      | None => read_date ins1
      | Some d =>
          match ins1 with
          | [] => None
          | lm :: ins2 =>
              match int_value lm with
              | None => read_date ins2
              | Some m =>
                  match ins2 with
                  | [] => None
                  | ly :: ins3 =>
                      match int_value ly with
                      | None => read_date ins3
                      | Some y =>
                          if datetime_ok y m d then Some (d, m, y, ins3)
                          else read_date ins3
                      end
                  end
              end
          end
      end
  end.

(** [Donor.donation_data]. *)
Definition donation_data (self : Donor.t) : console Donor.t :=
  λ ins,
    '(amount, ins) ← read_donated_amount ins;
    '(d, m, y, ins) ← read_date ins;
    Some (Donor.mk (Donor.name self) (Donor.email self) (Donor.age self)
            (Donor.id self) (Donor.phone self) d m y amount, ins).

(** The first loop of [Patient.patient_data]: the first line that is a
    positive integer. *)
Fixpoint read_required_amount (ins : list line) : option (Z * list line) :=
  match ins with
  | [] => None
  | l :: ins' =>
      match int_value l with
      | Some amount =>
          if bool_decide (amount > 0) then Some (amount, ins')
          else read_required_amount ins'
      | None => read_required_amount ins'
      end
  end.

(** The second loop of [Patient.patient_data]: the first line that is one
    of the valid types. *)
Fixpoint read_blood_type (ins : list line) : option (string * list line) :=
  match ins with
  | [] => None
  | l :: ins' =>
      if valid_type (text l) then Some (text l, ins')
      else read_blood_type ins'
  end.

(** [Patient.input_patient] on a new [Patient]: [input_basic], then the
    phone number; the other attributes keep the values of [__init__]. *)
Definition input_patient : console Patient.t :=
  λ ins,
    '(s, ins) ← Staff.input_basic ins;
    match ins with
    | phone :: ins' =>
        Some (Patient.mk (Staff.name s) (Staff.email s) (Staff.age s)
                (Staff.id s) (text phone) "" 0, ins')
    | [] => None
    end.

(** [Patient.patient_data]. *)
Definition patient_data (self : Patient.t) : console Patient.t :=
  λ ins,
    '(amount, ins) ← read_required_amount ins;
    '(bt, ins) ← read_blood_type ins;
    Some (Patient.mk (Patient.name self) (Patient.email self)
            (Patient.age self) (Patient.id self) (Patient.phone self)
            bt amount, ins).

(** ** The compatibility table *)

(** The dict [mapping] both front ends build. *)
Definition mapping : gmap string string :=
  list_to_map
    [ ("O-", "O-"); ("O+", "O-, O+"); ("A-", "O-, A-");
      ("A+", "O-, O+, A-, A+"); ("B-", "O-, B-"); ("B+", "O-, O+, B-, B+");
      ("AB-", "O-, A-, B-, AB-"); ("AB+", "All types") ].

(** What [Patient.get_types] prints after ["You can receive from:"]. *)
Definition get_types (self : Patient.t) : string :=
  default "WRONG INPUT" (mapping !! Patient.blood_type self).

(** ** Low-stock alerts *)

Definition CRITICAL_THRESHOLD : Z := 500.

(** [str(v)] for an [int] or a [bool], as an f-string formats it. *)
Definition str_num (v : json) : string :=
  match v with
  | JInt z => str_int z
  | JBool true => "True"
  | JBool false => "False"
  | _ => ""
  end.

(** The alert line of [check_alerts]. *)
Definition alert (btype : string) (amount : json) : string :=
  "ALERT: " ++ btype ++ " is critically low! Current level: "
  ++ str_num amount ++ " ml (Threshold: " ++ str_int CRITICAL_THRESHOLD
  ++ " ml)".

(** The loop of [check_alerts] over the items of the dict: [amount <
    CRITICAL_THRESHOLD] raises [TypeError] on an amount that is no number. *)
Fixpoint collect_alerts (items : list (string * json)) : exn + list string :=
  match items with
  | [] => inr []
  | (btype, amount) :: items' =>
      match as_int amount with
      | inl e => inl e
      | inr q =>
          match collect_alerts items' with
          | inl e => inl e
          | inr alerts =>
              inr (if bool_decide (q < CRITICAL_THRESHOLD)
                   then alert btype amount :: alerts
                   else alerts)
          end
      end
  end.

(** [check_alerts] from the point where [inv.list_inventory()] has returned
    the dict [inv_map]: the alerts it prints and the boolean it returns.
    The items are visited in the key order of the model, not in the
    insertion order of the Python dict. *)
Definition check_alerts (inv_map : gmap string json)
  : exn + (list string * bool) :=
  match collect_alerts (map_to_list inv_map) with
  | inl e => inl e
  | inr alerts => inr (alerts, bool_decide (alerts ≠ []))
  end.

(** ** The Reports page of the Streamlit front end *)

(** The elements a [for] loop over [v] visits, which are as many as
    [len(v)] counts: the items of a list, the keys of a dict, the
    characters of a string; [TypeError] on the rest. *)
Definition py_iter (v : json) : exn + list json :=
  match v with
  | JArr l => inr l
  | JObj m => inr ((λ kv, JStr kv.1) <$> map_to_list m)
  | JStr s =>
      inr ((λ c, JStr (String c EmptyString)) <$> String.list_ascii_of_string s)
  | _ => inl TypeError
  end.

(** [sum(d.get(field, 0) for d in records)], from the running total
    [acc]. *)
Fixpoint sum_field (field : string) (records : list json) (acc : Z)
  : exn + Z :=
  match records with
  | [] => inr acc
  | d :: records' =>
      match py_get field (JInt 0) d with
      | inl e => inl e
      | inr x =>
          match as_int x with
          | inl e => inl e
          | inr z => sum_field field records' (acc + z)
          end
      end
  end.

(** The loop
    [for d in records: bt = d.get("blood_type");
     if bt in by_type: by_type[bt] += d.get(field, 0)];
    [bt in by_type] raises [TypeError] on a list or a dict, which cannot be
    hashed. *)
Fixpoint tally (field : string) (records : list json)
    (by_type : gmap string Z) : exn + gmap string Z :=
  match records with
  | [] => inr by_type
  | d :: records' =>
      match py_get "blood_type" JNull d with
      | inl e => inl e
      | inr (JStr bt) =>
          match by_type !! bt with
          | Some current =>
              match py_get field (JInt 0) d with
              | inl e => inl e
              | inr x =>
                  match as_int x with
                  | inl e => inl e
                  | inr z =>
                      tally field records' (<[bt := current + z]> by_type)
                  end
              end
          | None => tally field records' by_type
          end
      | inr (JArr _) | inr (JObj _) => inl TypeError
      | inr _ => tally field records' by_type
      end
  end.

(** The order [sorted] puts strings in. *)
Definition str_le (a b : string) : Prop := String.leb a b = true.

#[global] Instance str_le_dec : RelDecision str_le :=
  λ a b, decide (String.leb a b = true).

(** [sorted(Inventory.VALID_TYPES)]. *)
Definition sorted_types : list string :=
  sorting.merge_sort str_le (elements VALID_TYPES).

(** One dict of [report_data]. *)
Record report_row := mkRow {
  row_type : string; row_donated : Z; row_requested : Z; row_net : Z }.

(** What the page shows: the four metrics and the table. *)
Record report := mkReport {
  total_donors : nat; total_donated : Z;
  total_patients : nat; total_requested : Z;
  report_data : list report_row }.

(** The body of [elif page == "Reports":].  The two tables start from
    [{bt: 0 for bt in Inventory.VALID_TYPES}] and lose no key, so the
    lookups that build [report_data] find their key. *)
Definition reports_page (timestamp : string) : M report :=
  let* d := get_data in
  let* donors := lift (py_get "donors" (JArr []) d) in
  let* patients := lift (py_get "patients" (JArr []) d) in
  let* ds := lift (py_iter donors) in
  let* donated := lift (sum_field "donated_amount" ds 0) in
  let* ps := lift (py_iter patients) in
  let* requested := lift (sum_field "required_amount" ps 0) in
  let* donation_by_type :=
    lift (tally "donated_amount" ds (gset_to_gmap 0 VALID_TYPES)) in
  let* request_by_type :=
    lift (tally "required_amount" ps (gset_to_gmap 0 VALID_TYPES)) in
  let row bt :=
    let donated := default 0 (donation_by_type !! bt) in
    let requested := default 0 (request_by_type !! bt) in
    mkRow bt donated requested (donated - requested) in
  do log timestamp "Generated comprehensive reports." then
  ret (mkReport (length ds) donated (length ps) requested
         (row <$> sorted_types)).

(** ** Runs of the front ends *)

(** What a session can do to the database. *)
Inductive action :=
  | Add_blood (btype : string) (amount : Z) (timestamp : string)
  | Remove_blood (btype : string) (amount : Z) (timestamp : string)
  | Log (timestamp entry : string)
  | Donate (self : Donor.t) (bt timestamp : string)
  | Request_blood (self : Patient.t) (timestamp today : string)
  | Complete_donation (donor_name donor_email : string)
      (donor_age donor_id : Z) (donor_phone : string) (donation_amount : Z)
      (donation_day donation_month donation_year : Z)
      (blood_type timestamp : string)
  | Request_button (patient_name patient_email : string)
      (patient_age patient_id : Z) (patient_phone : string)
      (patient_blood_type : string) (required_amount : Z)
      (timestamp today : string)
  | Reports_page (timestamp : string).

(** The database an action leaves behind, whether it returns or raises. *)
Definition perform (a : action) (db : Database) : Database :=
  match a with
  | Add_blood btype amount ts => state_of (add_blood btype amount ts db)
  | Remove_blood btype amount ts => state_of (remove_blood btype amount ts db)
  | Log ts entry => state_of (log ts entry db)
  | Donate self bt ts => state_of (Donor.donate self bt ts db)
  | Request_blood self ts today =>
      state_of (Patient.request_blood self ts today db)
  | Complete_donation n e a i p amount d m y bt ts =>
      state_of (complete_donation n e a i p amount d m y bt ts db)
  | Request_button n e a i p bt amount ts today =>
      state_of (request_blood_button n e a i p bt amount ts today db)
  | Reports_page ts => state_of (reports_page ts db)
  end.

(** The database after a sequence of actions. *)
Fixpoint perform_all (acts : list action) (db : Database) : Database :=
  match acts with
  | [] => db
  | a :: acts' => perform_all acts' (perform a db)
  end.

(** ** What an action may do to the database *)

(** The file holds the document. *)
Definition synced (db : Database) : Prop := disk db = Stored (data db).

(** Between [db] and [db'] nothing happened, or the document is a dict
    that was written and saved: no top-level key was lost, and every
    top-level sequence only grew at its end. *)
Definition effect (db db' : Database) : Prop :=
  db' = db
  ∨ ∃ m m',
      data db = JObj m
      ∧ db' = {| data := JObj m'; disk := Stored (JObj m') |}
      ∧ (∀ key, is_Some (m !! key) → is_Some (m' !! key))
      ∧ (∀ key l, sequence key db = Some l →
           ∃ suffix, sequence key db' = Some (l ++ suffix)%list).

(** A method whose every run has such an effect, whether it returns or
    raises. *)
Definition tidy {A} (m : M A) : Prop :=
  ∀ db, effect db (state_of (m db)).

(** [key in v] holds for each of the four top-level keys. *)
Definition contains_all (v : json) : bool :=
  forallb (λ key, match py_contains key v with inr true => true | _ => false end)
    top_level_keys.

(** ** Stock against records *)

(** The manual adjustments of the Inventory page, as opposed to the
    donation and request flows. *)
Definition is_adjustment (a : action) : bool :=
  match a with
  | Add_blood _ _ _ | Remove_blood _ _ _ => true
  | _ => false
  end.

(** The amount a table of the Reports page holds for a type, and the sum
    of a table over the eight types. *)
Definition count (by_type : gmap string Z) (t : string) : Z :=
  default 0 (by_type !! t).

Definition total (by_type : gmap string Z) : Z :=
  foldr (λ t acc, count by_type t + acc) 0 sorted_types.

(** The stock of every type is its 2000 ml of the first run plus what the
    donor records give for the type minus what the patient records take,
    the two tables being those of the Reports page; the metrics of the
    page are the sums of its tables. *)
Definition balanced (db : Database) : Prop :=
  ∃ m inv l ds ps D R,
    data db = JObj m ∧ m !! "inventory" = Some (JObj inv)
    ∧ sequence "logs" db = Some l
    ∧ sequence "donors" db = Some ds ∧ sequence "patients" db = Some ps
    ∧ tally "donated_amount" ds (gset_to_gmap 0 VALID_TYPES) = inr D
    ∧ tally "required_amount" ps (gset_to_gmap 0 VALID_TYPES) = inr R
    ∧ sum_field "donated_amount" ds 0 = inr (total D)
    ∧ sum_field "required_amount" ps 0 = inr (total R)
    ∧ dom D = VALID_TYPES ∧ dom R = VALID_TYPES
    ∧ ∀ t, t ∈ VALID_TYPES →
           inv !! t = Some (JInt (2000 + count D t - count R t)).

(** The rows the Reports page builds from its two tables. *)
Definition rows_of (D R : gmap string Z) : list report_row :=
  (λ bt, mkRow bt (count D bt) (count R bt) (count D bt - count R bt))
    <$> sorted_types.

(** * Properties *)

(** ** Shape of a document the ledger can work on *)

Lemma quantity_shape db btype q :
  current_quantity btype db = Some q →
  ∃ m inv, data db = JObj m ∧ m !! "inventory" = Some (JObj inv)
    ∧ as_int (default (JInt 0) (inv !! btype)) = inr q.
Proof.
  destruct db as [d f].
  unfold current_quantity, _get_inventory, bind, get_data, lift.
  simpl. destruct d as [| | | | |m]; simpl; try discriminate.
  destruct (m !! "inventory") as [[| | | | |inv]|] eqn:Hinv; simpl;
    try discriminate.
  destruct (as_int _) as [e|q'] eqn:Hq; simpl; try discriminate.
  intros [= ->]. by exists m, inv.
Qed.

Lemma quantity_of_shape db btype q m inv :
  data db = JObj m → m !! "inventory" = Some (JObj inv) →
  as_int (default (JInt 0) (inv !! btype)) = inr q →
  current_quantity btype db = Some q.
Proof.
  destruct db as [d f]. simpl. intros -> Hi Hq.
  unfold current_quantity, _get_inventory, bind, get_data, lift. simpl.
  rewrite Hi. simpl. by rewrite Hq.
Qed.

Ltac run_methods :=
  unfold _get_inventory, inventory_setitem, log, setdefault_append;
  unfold save, get_data, set_data, lift, ret, raise, bind; simpl.

(** ** What a call does on a well-shaped document *)

Lemma add_blood_early db btype amount ts :
  valid_type btype = false ∨ amount ≤ 0 →
  add_blood btype amount ts db = Ok false db.
Proof.
  intros H. unfold add_blood.
  destruct (valid_type btype); simpl; [|reflexivity].
  destruct H as [H|H]; [discriminate|].
  rewrite bool_decide_eq_true_2 by done. reflexivity.
Qed.

Lemma remove_blood_early db btype amount ts :
  valid_type btype = false ∨ amount ≤ 0 →
  remove_blood btype amount ts db = Ok false db.
Proof.
  intros H. unfold remove_blood.
  destruct (valid_type btype); simpl; [|reflexivity].
  destruct H as [H|H]; [discriminate|].
  rewrite bool_decide_eq_true_2 by done. reflexivity.
Qed.

Lemma add_blood_run db btype amount ts q l m inv :
  valid_type btype = true → 0 < amount →
  data db = JObj m → m !! "inventory" = Some (JObj inv) →
  as_int (default (JInt 0) (inv !! btype)) = inr q →
  sequence "logs" db = Some l →
  let d' :=
    JObj (<["logs" := JArr (l ++ [JStr (ts ++ " - Added " ++ str_int amount
                 ++ "ml to " ++ btype ++ " (new: " ++ str_int (q + amount)
                 ++ " ml)")])]>
         (<["inventory" := JObj (<[btype := JInt (q + amount)]> inv)]> m)) in
  add_blood btype amount ts db = Ok true {| data := d'; disk := Stored d' |}.
Proof.
  intros Hv Ha Hd Hi Hq Hl. destruct db as [d f]. simpl in Hd. subst d.
  unfold add_blood. rewrite Hv, bool_decide_eq_false_2 by lia. simpl.
  unfold sequence in Hl; simpl in Hl. run_methods.
  rewrite Hi. simpl. rewrite Hq. simpl. rewrite Hi. simpl.
  rewrite lookup_insert_ne by done.
  destruct (m !! "logs") as [[]|]; try discriminate; injection Hl as <-;
    reflexivity.
Qed.

Lemma remove_blood_run db btype amount ts q l m inv :
  valid_type btype = true → 0 < amount → amount ≤ q →
  data db = JObj m → m !! "inventory" = Some (JObj inv) →
  as_int (default (JInt 0) (inv !! btype)) = inr q →
  sequence "logs" db = Some l →
  let d' :=
    JObj (<["logs" := JArr (l ++ [JStr (ts ++ " - Removed " ++ str_int amount
                 ++ "ml from " ++ btype ++ " (remaining: "
                 ++ str_int (q - amount) ++ " ml)")])]>
         (<["inventory" := JObj (<[btype := JInt (q - amount)]> inv)]> m)) in
  remove_blood btype amount ts db = Ok true {| data := d'; disk := Stored d' |}.
Proof.
  intros Hv Ha Hle Hd Hi Hq Hl. destruct db as [d f]. simpl in Hd. subst d.
  unfold remove_blood. rewrite Hv, bool_decide_eq_false_2 by lia. simpl.
  unfold sequence in Hl; simpl in Hl. run_methods.
  rewrite Hi. simpl. rewrite Hq. simpl.
  rewrite bool_decide_eq_false_2 by lia. simpl. rewrite Hi. simpl.
  rewrite lookup_insert_ne by done.
  destruct (m !! "logs") as [[]|]; try discriminate; injection Hl as <-;
    reflexivity.
Qed.

Lemma remove_blood_short db btype amount ts q :
  valid_type btype = true → 0 < amount → q < amount →
  current_quantity btype db = Some q →
  remove_blood btype amount ts db = Ok false db.
Proof.
  intros Hv Ha Hlt Hq.
  destruct (quantity_shape _ _ _ Hq) as (m & inv & Hd & Hi & Hc).
  destruct db as [d f]. simpl in Hd. subst d.
  unfold remove_blood. rewrite Hv, bool_decide_eq_false_2 by lia. simpl.
  run_methods. rewrite Hi. simpl. rewrite Hc. simpl.
  by rewrite bool_decide_eq_true_2 by lia.
Qed.

Lemma valid_type_spec btype : valid_type btype = true ↔ btype ∈ VALID_TYPES.
Proof. unfold valid_type. apply bool_decide_eq_true. Qed.

Lemma valid_type_false btype : valid_type btype = false ↔ btype ∉ VALID_TYPES.
Proof. unfold valid_type. apply bool_decide_eq_false. Qed.

Lemma sequence_insert_same key x m f :
  sequence key {| data := JObj (<[key := JArr x]> m); disk := f |} = Some x.
Proof. unfold sequence. simpl. by rewrite lookup_insert_eq. Qed.

Lemma rejected_or_valid btype amount :
  (btype ∈ VALID_TYPES ∧ 0 < amount)
  ∨ (valid_type btype = false ∨ amount ≤ 0).
Proof.
  destruct (decide (btype ∈ VALID_TYPES)) as [Hv|Hv].
  - destruct (decide (0 < amount)); [by left | right; right; lia].
  - right. left. by apply valid_type_false.
Qed.

Lemma quantity_after_write m inv f btype z l :
  current_quantity btype
    {| data := JObj (<["logs" := l]>
                 (<["inventory" := JObj (<[btype := JInt z]> inv)]> m));
       disk := f |} = Some z.
Proof.
  eapply quantity_of_shape; [reflexivity| |].
  - rewrite lookup_insert_ne by done. apply lookup_insert_eq.
  - by rewrite lookup_insert_eq.
Qed.

(** ** The claims *)

(** C3: for a blood-type code outside the eight valid ones, and for an
    amount that is zero or negative, [add_blood] and [remove_blood] both
    return [False] and leave the whole database as it was: the document
    (inventory, donors, patients, logs) and the file. *)
Theorem rejected_call_changes_nothing db btype amount ts :
  btype ∉ VALID_TYPES ∨ amount ≤ 0 →
  add_blood btype amount ts db = Ok false db
  ∧ remove_blood btype amount ts db = Ok false db.
Proof.
  intros H. rewrite <- valid_type_false in H.
  split; [by apply add_blood_early | by apply remove_blood_early].
Qed.

Lemma rejected_call_changes_nothing_witness :
  ("XX" ∉ VALID_TYPES ∨ 100 ≤ 0)
  ∧ add_blood "XX" 100 "2025-01-01 10:00:00" (fresh Missing)
    = Ok false (fresh Missing)
  ∧ remove_blood "XX" 100 "2025-01-01 10:00:00" (fresh Missing)
    = Ok false (fresh Missing).
Proof.
  assert ("XX" ∉ VALID_TYPES ∨ 100 ≤ 0) as H
    by (left; apply valid_type_false; vm_compute; reflexivity).
  split; [exact H|].
  exact (rejected_call_changes_nothing (fresh Missing) "XX" 100
           "2025-01-01 10:00:00" H).
Defined.

(** C2, as the code has it: for a valid blood type and a positive amount,
    [remove_blood] succeeds if and only if the amount is at most the
    current quantity of that type; on success the quantity decreases by
    exactly the amount, and on failure the database is unchanged. *)
Theorem remove_blood_iff_in_stock db btype amount ts q l :
  btype ∈ VALID_TYPES → 0 < amount →
  current_quantity btype db = Some q → sequence "logs" db = Some l →
  ∃ db', remove_blood btype amount ts db = Ok (bool_decide (amount ≤ q)) db'
    ∧ (amount ≤ q → current_quantity btype db' = Some (q - amount))
    ∧ (q < amount → db' = db).
Proof.
  intros Hv Ha Hq Hl. apply valid_type_spec in Hv.
  destruct (quantity_shape _ _ _ Hq) as (m & inv & Hd & Hi & Hc).
  destruct (decide (amount ≤ q)) as [Hle|Hgt].
  - rewrite bool_decide_eq_true_2 by done.
    eexists. split; [by eapply remove_blood_run|].
    split; [intros _; apply quantity_after_write | intros; lia].
  - rewrite bool_decide_eq_false_2 by done.
    exists db. split; [apply (remove_blood_short _ _ _ _ q); auto; lia|].
    split; [intros; lia | done].
Qed.

Lemma remove_blood_iff_in_stock_witness :
  ∃ db', remove_blood "O-" 2000 "2025-01-01 10:00:00" (fresh Missing)
         = Ok (bool_decide (2000 ≤ 2000)) db'
    ∧ (2000 ≤ 2000 → current_quantity "O-" db' = Some (2000 - 2000))
    ∧ (2000 < 2000 → db' = fresh Missing).
Proof.
  apply (remove_blood_iff_in_stock (fresh Missing) "O-" 2000
           "2025-01-01 10:00:00" 2000 []).
  - apply valid_type_spec. vm_compute. reflexivity.
  - lia.
  - vm_compute. reflexivity.
  - vm_compute. reflexivity.
Defined.

(** C2 as stated fails at amount 0: the stock of O- is 2000, so the amount
    is at most the current quantity, and [remove_blood] returns [False]. *)
Lemma remove_blood_refuses_amount_zero :
  "O-" ∈ VALID_TYPES
  ∧ current_quantity "O-" (fresh Missing) = Some 2000
  ∧ 0 ≤ 2000
  ∧ remove_blood "O-" 0 "2025-01-01 10:00:00" (fresh Missing)
    = Ok false (fresh Missing).
Proof.
  split; [apply valid_type_spec; vm_compute; reflexivity|].
  split; [vm_compute; reflexivity|].
  split; [lia|]. vm_compute. reflexivity.
Qed.

Lemma quantity_unfold t db :
  current_quantity t db =
  match data db with
  | JObj m =>
      match m !! "inventory" with
      | Some (JObj inv) =>
          match as_int (default (JInt 0) (inv !! t)) with
          | inr q => Some q
          | inl _ => None
          end
      | _ => None
      end
  | _ => None
  end.
Proof.
  destruct db as [d f]. unfold current_quantity. run_methods.
  destruct d as [| | | | |m]; try reflexivity. simpl.
  destruct (m !! "inventory") as [[| | | | |inv]|]; try reflexivity.
  simpl. by destruct (as_int (default (JInt 0) (inv !! t))).
Qed.

(** C6: for a valid blood type and a positive amount, [add_blood] followed
    by [remove_blood] of the same amount on the same type succeeds twice
    and gives every blood type its prior quantity; the inventory dict
    itself is the prior one when it held the type's quantity. *)
Theorem credit_then_debit_round_trip db btype amount ts1 ts2 q l :
  btype ∈ VALID_TYPES → 0 < amount →
  current_quantity btype db = Some q → 0 ≤ q →
  sequence "logs" db = Some l →
  ∃ db1 db2,
    add_blood btype amount ts1 db = Ok true db1
    ∧ remove_blood btype amount ts2 db1 = Ok true db2
    ∧ (∀ t, current_quantity t db2 = current_quantity t db)
    ∧ (∀ inv, inventory db = Some inv → inv !! btype = Some (JInt q) →
         inventory db2 = Some inv).
Proof.
  intros Hv Ha Hq Hq0 Hl. apply valid_type_spec in Hv.
  destruct (quantity_shape _ _ _ Hq) as (m & inv & Hd & Hi & Hc).
  eexists. eexists. split; [by eapply add_blood_run|].
  split.
  { eapply (remove_blood_run _ _ _ _ (q + amount)); try done; try lia.
    - simpl. rewrite lookup_insert_ne by done. apply lookup_insert_eq.
    - by rewrite lookup_insert_eq.
    - apply sequence_insert_same. }
  replace (q + amount - amount) with q by lia.
  split.
  - intros t. rewrite !quantity_unfold. rewrite Hd. simpl.
    rewrite lookup_insert_ne by done. rewrite lookup_insert_eq.
    rewrite Hi, insert_insert_eq.
    destruct (decide (btype = t)) as [->|Hne].
    + rewrite lookup_insert_eq. simpl. by rewrite Hc.
    + by rewrite lookup_insert_ne.
  - intros inv0 Hinv0 Hb. unfold inventory, top in *. simpl.
    rewrite Hd in Hinv0. rewrite Hi in Hinv0. injection Hinv0 as <-.
    rewrite lookup_insert_ne by done. rewrite lookup_insert_eq.
    rewrite insert_insert_eq. by rewrite insert_id.
Qed.

Lemma credit_then_debit_round_trip_witness :
  ∃ db1 db2,
    add_blood "AB-" 250 "2025-01-01 10:00:00" (fresh Missing) = Ok true db1
    ∧ remove_blood "AB-" 250 "2025-01-01 10:05:00" db1 = Ok true db2
    ∧ (∀ t, current_quantity t db2 = current_quantity t (fresh Missing))
    ∧ (∀ inv, inventory (fresh Missing) = Some inv →
         inv !! "AB-" = Some (JInt 2000) → inventory db2 = Some inv).
Proof.
  apply (credit_then_debit_round_trip (fresh Missing) "AB-" 250
           "2025-01-01 10:00:00" "2025-01-01 10:05:00" 2000 []).
  - apply valid_type_spec. vm_compute. reflexivity.
  - lia.
  - vm_compute. reflexivity.
  - lia.
  - vm_compute. reflexivity.
Defined.

(** C7: a successful [add_blood] appends exactly one entry to the logs,
    ["<timestamp> - Added <amt>ml to <type> (new: <total> ml)"] with
    [<total>] the quantity after the call; a successful [remove_blood]
    appends exactly one entry
    ["<timestamp> - Removed <amt>ml from <type> (remaining: <total> ml)"];
    a call that fails appends nothing. *)
Theorem ledger_call_logs_once db btype amount ts q l :
  current_quantity btype db = Some q → sequence "logs" db = Some l →
  (∃ ok db',
      add_blood btype amount ts db = Ok ok db'
      ∧ sequence "logs" db' =
          Some (if ok
                then (l ++ [JStr (ts ++ " - Added " ++ str_int amount
                                 ++ "ml to " ++ btype ++ " (new: "
                                 ++ str_int (q + amount) ++ " ml)")])%list
                else l)
      ∧ (ok = true → current_quantity btype db' = Some (q + amount)))
  ∧ (∃ ok db',
      remove_blood btype amount ts db = Ok ok db'
      ∧ sequence "logs" db' =
          Some (if ok
                then (l ++ [JStr (ts ++ " - Removed " ++ str_int amount
                                 ++ "ml from " ++ btype ++ " (remaining: "
                                 ++ str_int (q - amount) ++ " ml)")])%list
                else l)
      ∧ (ok = true → current_quantity btype db' = Some (q - amount))).
Proof.
  intros Hq Hl.
  destruct (quantity_shape _ _ _ Hq) as (m & inv & Hd & Hi & Hc).
  destruct (rejected_or_valid btype amount) as [[Hv Ha]|Hrej].
  - apply valid_type_spec in Hv. split.
    + exists true. eexists. split; [by eapply add_blood_run|].
      split; [apply sequence_insert_same|].
      intros _. apply quantity_after_write.
    + destruct (decide (amount ≤ q)) as [Hle|Hgt].
      * exists true. eexists. split; [by eapply remove_blood_run|].
        split; [apply sequence_insert_same|].
        intros _. apply quantity_after_write.
      * exists false, db.
        split; [apply (remove_blood_short _ _ _ _ q); auto; lia|].
        split; [done | discriminate].
  - split; exists false, db.
    + split; [by apply add_blood_early|]. split; [done | discriminate].
    + split; [by apply remove_blood_early|]. split; [done | discriminate].
Qed.

Lemma ledger_call_logs_once_witness :
  (∃ ok db',
      add_blood "A+" 450 "2025-03-02 09:30:00" (fresh Missing) = Ok ok db'
      ∧ sequence "logs" db' =
          Some (if ok
                then ([] ++ [JStr ("2025-03-02 09:30:00" ++ " - Added "
                                 ++ str_int 450 ++ "ml to " ++ "A+"
                                 ++ " (new: " ++ str_int (2000 + 450)
                                 ++ " ml)")])%list
                else [])
      ∧ (ok = true → current_quantity "A+" db' = Some (2000 + 450)))
  ∧ (∃ ok db',
      remove_blood "A+" 450 "2025-03-02 09:30:00" (fresh Missing) = Ok ok db'
      ∧ sequence "logs" db' =
          Some (if ok
                then ([] ++ [JStr ("2025-03-02 09:30:00" ++ " - Removed "
                                 ++ str_int 450 ++ "ml from " ++ "A+"
                                 ++ " (remaining: " ++ str_int (2000 - 450)
                                 ++ " ml)")])%list
                else [])
      ∧ (ok = true → current_quantity "A+" db' = Some (2000 - 450))).
Proof.
  apply (ledger_call_logs_once (fresh Missing) "A+" 450
           "2025-03-02 09:30:00" 2000 []);
    vm_compute; reflexivity.
Defined.

(** ** Frame of a ledger call *)

Lemma frame_kept_refl btype db : frame_kept btype db db.
Proof.
  repeat split; try done. exists [].
  destruct (sequence "logs" db); simpl; [by rewrite app_nil_r | done].
Qed.

Lemma frame_kept_write btype db f m inv x :
  data db = JObj m → m !! "inventory" = Some (JObj inv) →
  frame_kept btype db
    {| data := JObj (<["inventory" := JObj (<[btype := x]> inv)]> m);
       disk := f |}.
Proof.
  intros Hd Hi. unfold frame_kept, entry, inventory, sequence, top.
  rewrite Hd. simpl. rewrite lookup_insert_eq, Hi. simpl.
  rewrite !lookup_insert_ne by done.
  split; [intros t Ht; by rewrite lookup_insert_ne|].
  do 2 (split; [done|]).
  split; [intros key H1 H2; by rewrite lookup_insert_ne|].
  exists []. destruct (m !! "logs") as [[]|]; simpl; by rewrite ?app_nil_r.
Qed.

Lemma frame_kept_write_log btype db f m inv x l e :
  data db = JObj m → m !! "inventory" = Some (JObj inv) →
  sequence "logs" db = Some l →
  frame_kept btype db
    {| data := JObj (<["logs" := JArr (l ++ [e])]>
                 (<["inventory" := JObj (<[btype := x]> inv)]> m));
       disk := f |}.
Proof.
  intros Hd Hi Hl. unfold frame_kept, entry, inventory, top.
  rewrite Hl, sequence_insert_same. unfold sequence.
  rewrite Hd. simpl. rewrite lookup_insert_ne by done.
  rewrite lookup_insert_eq, Hi. simpl.
  rewrite !(lookup_insert_ne _ "logs") by done.
  rewrite !(lookup_insert_ne _ "inventory") by done.
  split; [intros t Ht; by rewrite lookup_insert_ne|].
  do 2 (split; [done|]).
  split; [intros key H1 H2; by rewrite !lookup_insert_ne|].
  by exists [e].
Qed.

Lemma add_blood_frame db btype amount ts :
  frame_kept btype db (state_of (add_blood btype amount ts db)).
Proof.
  unfold add_blood.
  destruct (negb (valid_type btype) || bool_decide (amount ≤ 0));
    [apply frame_kept_refl|].
  destruct db as [d f]. run_methods.
  destruct d as [| | | | |m]; try apply frame_kept_refl. simpl.
  destruct (m !! "inventory") as [[| | | | |inv]|] eqn:Hi; simpl;
    try apply frame_kept_refl.
  destruct (as_int (default (JInt 0) (inv !! btype))) as [e|q] eqn:Hq; simpl;
    [apply frame_kept_refl|].
  rewrite Hi. simpl. rewrite lookup_insert_ne by done.
  destruct (m !! "logs") as [[| | | |l0|]|] eqn:Hl; simpl;
    try (by apply frame_kept_write).
  - apply (frame_kept_write_log _ _ _ _ _ _ l0); try done.
    unfold sequence. simpl. by rewrite Hl.
  - apply (frame_kept_write_log _ _ _ _ _ _ []); try done.
    unfold sequence. simpl. by rewrite Hl.
Qed.

Lemma remove_blood_frame db btype amount ts :
  frame_kept btype db (state_of (remove_blood btype amount ts db)).
Proof.
  unfold remove_blood.
  destruct (negb (valid_type btype) || bool_decide (amount ≤ 0));
    [apply frame_kept_refl|].
  destruct db as [d f]. run_methods.
  destruct d as [| | | | |m]; try apply frame_kept_refl. simpl.
  destruct (m !! "inventory") as [[| | | | |inv]|] eqn:Hi; simpl;
    try apply frame_kept_refl.
  destruct (as_int (default (JInt 0) (inv !! btype))) as [e|q] eqn:Hq; simpl;
    [apply frame_kept_refl|].
  destruct (bool_decide (amount > q)); simpl; [apply frame_kept_refl|].
  rewrite Hi. simpl. rewrite lookup_insert_ne by done.
  destruct (m !! "logs") as [[| | | |l0|]|] eqn:Hl; simpl;
    try (by apply frame_kept_write).
  - apply (frame_kept_write_log _ _ _ _ _ _ l0); try done.
    unfold sequence. simpl. by rewrite Hl.
  - apply (frame_kept_write_log _ _ _ _ _ _ []); try done.
    unfold sequence. simpl. by rewrite Hl.
Qed.

(** C10: [add_blood] and [remove_blood] change at most the inventory entry
    of the given blood type and append at most to the logs: the entries of
    every other blood type, the donors, the patients and every other
    top-level key are what they were, whether the call returns or raises. *)
Theorem ledger_call_frame db btype amount ts :
  frame_kept btype db (state_of (add_blood btype amount ts db))
  ∧ frame_kept btype db (state_of (remove_blood btype amount ts db)).
Proof. split; [apply add_blood_frame | apply remove_blood_frame]. Qed.

(** ** Defaulting and loading *)

Lemma ensure_key_dict key value changed m f :
  ensure_key key value changed {| data := JObj m; disk := f |}
  = Ok (changed || bool_decide (m !! key = None))
       {| data := JObj (fill key value m); disk := f |}.
Proof.
  unfold ensure_key, fill. run_methods.
  destruct (m !! key) eqn:Hk.
  - rewrite bool_decide_eq_true_2 by eauto.
    rewrite bool_decide_eq_false_2 by done. by rewrite orb_false_r.
  - rewrite bool_decide_eq_false_2 by (intros [? ?]; done).
    rewrite bool_decide_eq_true_2 by done. by rewrite orb_true_r.
Qed.

Lemma lookup_fill key value m k :
  fill key value m !! k =
  match m !! k with
  | Some v => Some v
  | None => if decide (key = k) then Some value else None
  end.
Proof.
  unfold fill. destruct (m !! key) eqn:Hk.
  - destruct (m !! k) eqn:Hk'; [done|]. case_decide; congruence.
  - rewrite lookup_insert. case_decide as Hd.
    + subst k. by rewrite Hk.
    + by destruct (m !! k).
Qed.

Lemma default_collection_cases k :
  default_collection k =
  if decide ("logs" = k) then Some (JArr [])
  else if decide ("patients" = k) then Some (JArr [])
  else if decide ("donors" = k) then Some (JArr [])
  else if decide ("inventory" = k) then Some (JObj default_inventory)
  else None.
Proof.
  unfold default_collection.
  destruct (decide ("logs" = k)) as [<-|H1]; [done|].
  destruct (decide ("patients" = k)) as [<-|H2]; [done|].
  destruct (decide ("donors" = k)) as [<-|H3]; [done|].
  destruct (decide ("inventory" = k)) as [<-|H4]; [done|].
  rewrite decide_False by done. rewrite decide_False; [done|].
  rewrite !elem_of_cons, elem_of_nil.
  intros [->|[->|[->|[]]]]; congruence.
Qed.

Lemma lookup_filled m k :
  filled m !! k =
  match m !! k with Some v => Some v | None => default_collection k end.
Proof.
  unfold filled. rewrite !lookup_fill, default_collection_cases.
  destruct (m !! k); [done|].
  destruct (decide ("inventory" = k)) as [<-|?]; [done|].
  destruct (decide ("donors" = k)) as [<-|?]; [done|].
  destruct (decide ("patients" = k)) as [<-|?]; [done|].
  by destruct (decide ("logs" = k)).
Qed.

Lemma fill_present key value m : is_Some (m !! key) → fill key value m = m.
Proof. intros [v Hv]. unfold fill. by rewrite Hv. Qed.

Lemma ensure_structure_dict m f :
  ∃ f', ensure_structure {| data := JObj m; disk := f |}
        = Ok tt {| data := JObj (filled m); disk := f' |}.
Proof.
  unfold ensure_structure. unfold bind at 1.
  rewrite ensure_key_dict. unfold bind at 1.
  rewrite ensure_key_dict. unfold bind at 1.
  rewrite ensure_key_dict. unfold bind at 1.
  rewrite ensure_key_dict. fold (filled m).
  match goal with |- context [if ?c then _ else _] => destruct c end;
    eexists; reflexivity.
Qed.

Lemma ensure_structure_complete m f :
  Forall (λ key, is_Some (m !! key)) top_level_keys →
  ensure_structure {| data := JObj m; disk := f |}
  = Ok tt {| data := JObj m; disk := f |}.
Proof.
  unfold top_level_keys. rewrite !Forall_cons.
  intros (Hi & Hd & Hp & Hl & _).
  unfold ensure_structure. unfold bind at 1.
  rewrite ensure_key_dict, fill_present by done. unfold bind at 1.
  rewrite ensure_key_dict, fill_present by done. unfold bind at 1.
  rewrite ensure_key_dict, fill_present by done. unfold bind at 1.
  rewrite ensure_key_dict, fill_present by done.
  rewrite !bool_decide_eq_false_2; [done|..];
    intros E; by (rewrite E in Hi || rewrite E in Hd
                  || rewrite E in Hp || rewrite E in Hl;
                  match goal with H : is_Some None |- _ => destruct H end).
Qed.

Lemma filled_complete m :
  Forall (λ key, is_Some (filled m !! key)) top_level_keys.
Proof.
  unfold top_level_keys. repeat apply Forall_cons_2; [..|apply Forall_nil_2];
    rewrite lookup_filled; by destruct (m !! _).
Qed.

Lemma ensure_structure_empty f :
  ensure_structure {| data := JObj ∅; disk := f |}
  = Ok tt {| data := default_document; disk := Stored default_document |}.
Proof. reflexivity. Qed.

Lemma default_inventory_lookup t :
  t ∈ VALID_TYPES → default_inventory !! t = Some (JInt 2000).
Proof.
  unfold VALID_TYPES. rewrite !elem_of_union, !elem_of_singleton.
  intros [[[[[[[->| ->]| ->]| ->]| ->]| ->]| ->]| ->]; reflexivity.
Qed.

Lemma default_inventory_dom : dom default_inventory = VALID_TYPES.
Proof. unfold default_inventory. rewrite !dom_insert_L, dom_empty_L.
  unfold VALID_TYPES. set_solver. Qed.

(** C5: [ensure_structure] on the empty document stores the eight blood
    types, each with 2000 ml, and empty donors, patients and logs; on any
    document it keeps every value present, stores the default under each of
    the four top-level keys that is missing and under no other key, and a
    second call changes nothing. *)
Theorem ensure_structure_defaults :
  (∀ f, ensure_structure {| data := JObj ∅; disk := f |}
        = Ok tt {| data := default_document; disk := Stored default_document |})
  ∧ (top "inventory" (fresh Missing) = Some (JObj default_inventory)
     ∧ dom default_inventory = VALID_TYPES
     ∧ (∀ t, t ∈ VALID_TYPES → default_inventory !! t = Some (JInt 2000))
     ∧ top "donors" (fresh Missing) = Some (JArr [])
     ∧ top "patients" (fresh Missing) = Some (JArr [])
     ∧ top "logs" (fresh Missing) = Some (JArr []))
  ∧ (∀ m f, ∃ m' f',
       ensure_structure {| data := JObj m; disk := f |}
       = Ok tt {| data := JObj m'; disk := f' |}
       ∧ ensure_structure {| data := JObj m'; disk := f' |}
         = Ok tt {| data := JObj m'; disk := f' |}
       ∧ (∀ key v, m !! key = Some v → m' !! key = Some v)
       ∧ (∀ key, m !! key = None → m' !! key = default_collection key)).
Proof.
  split; [apply ensure_structure_empty|].
  split.
  { split; [reflexivity|].
    split; [apply default_inventory_dom|].
    split; [apply default_inventory_lookup|].
    by split; [|split]. }
  intros m f. destruct (ensure_structure_dict m f) as [f' Hrun].
  exists (filled m), f'. split; [exact Hrun|].
  split; [apply ensure_structure_complete; apply filled_complete|].
  split.
  - intros key v Hk. by rewrite lookup_filled, Hk.
  - intros key Hk. by rewrite lookup_filled, Hk.
Qed.

(** C8, as the code has it: when the file is absent, when [json.load]
    cannot parse it and when it holds a JSON object, [load] returns with a
    document that has the four top-level collections; an absent file and an
    unparseable one both give the empty document, defaulted. *)
Theorem load_defaults d :
  (load {| data := d; disk := Missing |}
     = ensure_structure {| data := JObj ∅; disk := Missing |}
   ∧ load {| data := d; disk := Corrupt |}
     = ensure_structure {| data := JObj ∅; disk := Corrupt |})
  ∧ (∀ f, f = Missing ∨ f = Corrupt →
       load {| data := d; disk := f |}
       = Ok tt {| data := default_document; disk := Stored default_document |})
  ∧ (∀ m, ∃ m' f',
       load {| data := d; disk := Stored (JObj m) |}
       = Ok tt {| data := JObj m'; disk := f' |}
       ∧ (∀ key v, m !! key = Some v → m' !! key = Some v))
  ∧ (∀ f, f = Missing ∨ f = Corrupt ∨ (∃ m, f = Stored (JObj m)) →
       ∃ db', load {| data := d; disk := f |} = Ok tt db'
              ∧ has_collections db').
Proof.
  split; [by split|].
  split; [by intros f [-> | ->]|].
  split.
  - intros m. unfold load. simpl. unfold bind, set_data. simpl.
    destruct (ensure_structure_dict m (Stored (JObj m))) as [f' Hrun].
    exists (filled m), f'. split; [exact Hrun|].
    intros key v Hk. by rewrite lookup_filled, Hk.
  - intros f [-> | [-> | [m ->]]].
    + exists {| data := default_document; disk := Stored default_document |}.
      split; [reflexivity|]. repeat constructor; by eexists.
    + exists {| data := default_document; disk := Stored default_document |}.
      split; [reflexivity|]. repeat constructor; by eexists.
    + unfold load. simpl. unfold bind, set_data. simpl.
      destruct (ensure_structure_dict m (Stored (JObj m))) as [f' Hrun].
      eexists. split; [exact Hrun|]. apply filled_complete.
Qed.

(** C8 as stated fails on a file that holds the JSON array []: [load]
    raises [TypeError] and no document with the four collections comes
    out. *)
Lemma load_raises_on_stored_array :
  load {| data := JObj ∅; disk := Stored (JArr []) |}
  = Raised TypeError {| data := JArr []; disk := Stored (JArr []) |}
  ∧ ¬ (∃ db', load {| data := JObj ∅; disk := Stored (JArr []) |} = Ok tt db'
              ∧ has_collections db').
Proof.
  split; [reflexivity|]. intros (db' & Hrun & _). discriminate Hrun.
Qed.

(** ** The ledger invariant *)

Lemma ledger_inv_fresh f : ledger_inv (fresh f).
Proof.
  exists (filled ∅), default_inventory.
  split; [reflexivity|]. split; [reflexivity|].
  split; [by eexists|].
  split; [apply default_inventory_dom|].
  intros t Ht. exists 2000. split; [by apply default_inventory_lookup | lia].
Qed.

Lemma ledger_inv_write db m inv btype z l e f :
  data db = JObj m → m !! "inventory" = Some (JObj inv) →
  dom inv = VALID_TYPES →
  (∀ t, t ∈ VALID_TYPES → ∃ q, inv !! t = Some (JInt q) ∧ 0 ≤ q) →
  btype ∈ VALID_TYPES → 0 ≤ z →
  ledger_inv
    {| data := JObj (<["logs" := JArr (l ++ [e])]>
                 (<["inventory" := JObj (<[btype := JInt z]> inv)]> m));
       disk := f |}.
Proof.
  intros Hd Hi Hdom Hall Hv Hz.
  destruct (Hall _ Hv) as (q0 & Hq0 & _).
  eexists. exists (<[btype := JInt z]> inv).
  split; [reflexivity|].
  split; [rewrite lookup_insert_ne by done; apply lookup_insert_eq|].
  split; [rewrite sequence_insert_same; by eexists|].
  split; [by rewrite dom_insert_lookup_L|].
  intros t Ht. destruct (decide (btype = t)) as [->|Hne].
  - exists z. by rewrite lookup_insert_eq.
  - rewrite lookup_insert_ne by done. by apply Hall.
Qed.

Lemma ledger_inv_step o db : ledger_inv db → ledger_inv (state_of (run_op o db)).
Proof.
  intros Hinv.
  pose proof Hinv as (m & inv & Hd & Hi & [l Hl] & Hdom & Hall).
  destruct o as [btype amount ts | btype amount ts]; simpl.
  - destruct (rejected_or_valid btype amount) as [[Hv Ha]|Hrej].
    + destruct (Hall _ Hv) as (q & Hq & Hq0).
      rewrite (add_blood_run db btype amount ts q l m inv); try done.
      * simpl. eapply ledger_inv_write; eauto. lia.
      * by apply valid_type_spec.
      * by rewrite Hq.
    + by rewrite add_blood_early.
  - destruct (rejected_or_valid btype amount) as [[Hv Ha]|Hrej].
    + destruct (Hall _ Hv) as (q & Hq & Hq0).
      destruct (decide (amount ≤ q)) as [Hle|Hgt].
      * rewrite (remove_blood_run db btype amount ts q l m inv); try done.
        -- simpl. eapply ledger_inv_write; eauto. lia.
        -- by apply valid_type_spec.
        -- by rewrite Hq.
      * rewrite (remove_blood_short db btype amount ts q); try done.
        -- by apply valid_type_spec.
        -- lia.
        -- eapply quantity_of_shape; eauto. by rewrite Hq.
    + by rewrite remove_blood_early.
Qed.

Lemma ledger_inv_run os : ∀ db, ledger_inv db → ledger_inv (run_ops os db).
Proof.
  induction os as [|o os IH]; intros db Hinv; simpl; [done|].
  apply IH. by apply ledger_inv_step.
Qed.

(** C4: in every state reached from a freshly defaulted document by a
    sequence of [add_blood] and [remove_blood] calls, the inventory holds
    exactly the eight blood types and every quantity is an integer that is
    not negative. *)
Theorem stock_never_negative f os :
  ∃ inv,
    inventory (run_ops os (fresh f)) = Some inv
    ∧ dom inv = VALID_TYPES
    ∧ ∀ t, t ∈ VALID_TYPES → ∃ q, inv !! t = Some (JInt q) ∧ 0 ≤ q.
Proof.
  destruct (ledger_inv_run os (fresh f) (ledger_inv_fresh f))
    as (m & inv & Hd & Hi & _ & Hdom & Hall).
  exists inv. split; [|done].
  unfold inventory, top. by rewrite Hd, Hi.
Qed.

(** ** Transaction records *)

Lemma not_appended_same key rec db : ¬ appended key rec db db.
Proof.
  intros (l & H1 & H2). rewrite H1 in H2. injection H2 as H2.
  apply (f_equal length) in H2. rewrite length_app in H2. simpl in H2. lia.
Qed.

Lemma record_run key x db l m :
  data db = JObj m → sequence key db = Some l →
  setdefault_append key x db
  = Ok tt {| data := JObj (<[key := JArr (l ++ [x])]> m); disk := disk db |}.
Proof.
  destruct db as [d f]. simpl. intros -> Hl.
  unfold sequence in Hl. simpl in Hl. run_methods.
  destruct (m !! key) as [[]|]; try discriminate; injection Hl as <-; done.
Qed.

Lemma sequence_insert_other key key' v m f :
  key' ≠ key →
  sequence key {| data := JObj (<[key' := v]> m); disk := f |}
  = sequence key {| data := JObj m; disk := f |}.
Proof. intros Hne. unfold sequence. simpl. by rewrite lookup_insert_ne. Qed.

Lemma quantity_insert_other btype key' v m f :
  key' ≠ "inventory" →
  current_quantity btype {| data := JObj (<[key' := v]> m); disk := f |}
  = current_quantity btype {| data := JObj m; disk := f |}.
Proof. intros Hne. rewrite !quantity_unfold. simpl. by rewrite lookup_insert_ne. Qed.

(** The donation flow, from the credit on: the record is appended after
    a credit that succeeded, and nothing changes after one that failed. *)
Lemma donation_flow {A} (yes no : A) db btype amount ts rec q l ds :
  current_quantity btype db = Some q → sequence "logs" db = Some l →
  sequence "donors" db = Some ds →
  ∃ ok db1 db',
    add_blood btype amount ts db = Ok ok db1
    ∧ (let* ok := add_blood btype amount ts in
       if ok then
         do setdefault_append "donors" rec then do save then ret yes
       else ret no) db = Ok (if ok then yes else no) db'
    ∧ (appended "donors" rec db db' ↔ ok = true)
    ∧ (ok = false → db' = db)
    ∧ (ok = true → current_quantity btype db' = Some (q + amount)).
Proof.
  intros Hq Hl Hds.
  destruct (quantity_shape _ _ _ Hq) as (m & inv & Hd & Hi & Hc).
  destruct (rejected_or_valid btype amount) as [[Hv Ha]|Hrej].
  - apply valid_type_spec in Hv.
    pose proof (add_blood_run db btype amount ts q l m inv Hv Ha Hd Hi Hc Hl)
      as Hadd. simpl in Hadd.
    exists true. eexists. eexists. split; [exact Hadd|].
    unfold bind at 1. rewrite Hadd. unfold bind at 1.
    erewrite record_run; [|reflexivity|].
    2:{ rewrite !sequence_insert_other by done.
        destruct db as [d f]. simpl in Hd. subst d.
        unfold sequence in *. simpl in *. exact Hds. }
    unfold bind, save, ret. simpl.
    split; [reflexivity|].
    split.
    { split; [done|]. intros _. exists ds. split; [done|].
      apply sequence_insert_same. }
    split; [discriminate|]. intros _.
    rewrite quantity_insert_other by done. apply quantity_after_write.
  - exists false, db, db. rewrite add_blood_early by done.
    split; [done|]. unfold bind. rewrite add_blood_early by done.
    split; [done|]. split; [|done].
    split; [intros H; by apply not_appended_same in H | discriminate].
Qed.

(** The request flow, from the debit on. *)
Lemma request_flow {A} (yes no : A) db btype amount ts rec q l ps :
  current_quantity btype db = Some q → sequence "logs" db = Some l →
  sequence "patients" db = Some ps →
  ∃ ok db1 db',
    remove_blood btype amount ts db = Ok ok db1
    ∧ (let* ok := remove_blood btype amount ts in
       if ok then
         do setdefault_append "patients" rec then do save then ret yes
       else ret no) db = Ok (if ok then yes else no) db'
    ∧ (appended "patients" rec db db' ↔ ok = true)
    ∧ (ok = false → db' = db)
    ∧ (ok = true → current_quantity btype db' = Some (q - amount)).
Proof.
  intros Hq Hl Hps.
  destruct (quantity_shape _ _ _ Hq) as (m & inv & Hd & Hi & Hc).
  assert (∀ db0, remove_blood btype amount ts db = Ok false db0 → db0 = db →
    ∃ ok db1 db',
      remove_blood btype amount ts db = Ok ok db1
      ∧ (let* ok := remove_blood btype amount ts in
         if ok then
           do setdefault_append "patients" rec then do save then ret yes
         else ret no) db = Ok (if ok then yes else no) db'
      ∧ (appended "patients" rec db db' ↔ ok = true)
      ∧ (ok = false → db' = db)
      ∧ (ok = true → current_quantity btype db' = Some (q - amount)))
    as Hfail.
  { intros db0 Hrun ->. exists false, db, db.
    split; [done|]. unfold bind. rewrite Hrun.
    split; [done|]. split; [|done].
    split; [intros H; by apply not_appended_same in H | discriminate]. }
  destruct (rejected_or_valid btype amount) as [[Hv Ha]|Hrej];
    [|by apply (Hfail db); [apply remove_blood_early|]].
  apply valid_type_spec in Hv.
  destruct (decide (amount ≤ q)) as [Hle|Hgt];
    [|by apply (Hfail db); [apply (remove_blood_short _ _ _ _ q); auto; lia|]].
  pose proof (remove_blood_run db btype amount ts q l m inv
                Hv Ha Hle Hd Hi Hc Hl) as Hrem. simpl in Hrem.
  exists true. eexists. eexists. split; [exact Hrem|].
  unfold bind at 1. rewrite Hrem. unfold bind at 1.
  erewrite record_run; [|reflexivity|].
  2:{ rewrite !sequence_insert_other by done.
      destruct db as [d f]. simpl in Hd. subst d.
      unfold sequence in *. simpl in *. exact Hps. }
  unfold bind, save, ret. simpl.
  split; [reflexivity|].
  split.
  { split; [done|]. intros _. exists ps. split; [done|].
    apply sequence_insert_same. }
  split; [discriminate|]. intros _.
  rewrite quantity_insert_other by done. apply quantity_after_write.
Qed.

(** C1: in the donation flow a record is appended to the donors if and
    only if the [add_blood] call was made and returned [True], and in the
    request flow a record is appended to the patients if and only if the
    [remove_blood] call was made and returned [True]; an appended record
    comes with its stock change, and without one the database is unchanged.
    This holds for [Donor.donate], [Patient.request_blood] and the two form
    handlers. *)
Theorem record_iff_stock_mutation db l ds ps :
  sequence "logs" db = Some l →
  sequence "donors" db = Some ds →
  sequence "patients" db = Some ps →
  (∀ self bt ts q,
     current_quantity bt db = Some q →
     ∃ ok db1 db',
       add_blood bt (Donor.donated_amount self) ts db = Ok ok db1
       ∧ Donor.donate self bt ts db = Ok ok db'
       ∧ (appended "donors" (Donor.record self bt) db db' ↔ ok = true)
       ∧ (ok = false → db' = db)
       ∧ (ok = true →
          current_quantity bt db' = Some (q + Donor.donated_amount self)))
  ∧ (∀ self ts today q,
     current_quantity (Patient.blood_type self) db = Some q →
     ∃ ok db1 db',
       remove_blood (Patient.blood_type self) (Patient.required_amount self)
         ts db = Ok ok db1
       ∧ Patient.request_blood self ts today db = Ok ok db'
       ∧ (appended "patients" (Patient.record self today) db db' ↔ ok = true)
       ∧ (ok = false → db' = db)
       ∧ (ok = true →
          current_quantity (Patient.blood_type self) db'
          = Some (q - Patient.required_amount self)))
  ∧ (∀ name email age id phone amount day month year bt ts q,
     current_quantity bt db = Some q →
     ∃ ok db1 msg db',
       add_blood bt amount ts db = Ok ok db1
       ∧ complete_donation name email age id phone amount day month year bt
           ts db = Ok msg db'
       ∧ (appended "donors"
            (donor_rec name email age id phone amount bt
               (fmt_date year month day)) db db'
          ↔ truthy name && truthy email && ok = true)
       ∧ (truthy name && truthy email && ok = false → db' = db)
       ∧ (truthy name && truthy email && ok = true →
          current_quantity bt db' = Some (q + amount)))
  ∧ (∀ name email age id phone bt amount ts today q,
     current_quantity bt db = Some q →
     ∃ ok db1 msg db',
       remove_blood bt amount ts db = Ok ok db1
       ∧ request_blood_button name email age id phone bt amount ts today db
         = Ok msg db'
       ∧ (appended "patients"
            (patient_rec name email age id phone amount bt today) db db'
          ↔ truthy name && truthy email && ok = true)
       ∧ (truthy name && truthy email && ok = false → db' = db)
       ∧ (truthy name && truthy email && ok = true →
          current_quantity bt db' = Some (q - amount))).
Proof.
  intros Hl Hds Hps. repeat apply conj.
  - intros self bt ts q Hq. unfold Donor.donate.
    destruct (valid_type bt) eqn:Hv; simpl.
    + destruct (donation_flow true false db bt (Donor.donated_amount self)
                  ts (Donor.record self bt) q l ds Hq Hl Hds)
        as (ok & db1 & db' & Hadd & Hrun & Happ & Hno & Hyes).
      exists ok, db1, db'. rewrite Hrun. by destruct ok.
    + exists false, db, db. rewrite add_blood_early by auto.
      repeat split; try done.
      intros H. by apply not_appended_same in H.
  - intros self ts today q Hq. unfold Patient.request_blood.
    destruct (request_flow true false db (Patient.blood_type self)
                (Patient.required_amount self) ts
                (Patient.record self today) q l ps Hq Hl Hps)
      as (ok & db1 & db' & Hrem & Hrun & Happ & Hno & Hyes).
    exists ok, db1, db'. simpl. rewrite Hrun. by destruct ok.
  - intros name email age id phone amount day month year bt ts q Hq.
    unfold complete_donation, try_except.
    destruct (donation_flow ShownSuccess ShownFailure db bt amount ts
                (donor_rec name email age id phone amount bt
                   (fmt_date year month day)) q l ds Hq Hl Hds)
      as (ok & db1 & db' & Hadd & Hrun & Happ & Hno & Hyes).
    destruct (truthy name && truthy email); simpl.
    + exists ok, db1. eexists. exists db'. rewrite Hrun.
      split; [done|]. split; [reflexivity|]. split; [done|]. by split.
    + exists ok, db1, ShownMissingFields, db.
      repeat split; try done.
      intros H. by apply not_appended_same in H.
  - intros name email age id phone bt amount ts today q Hq.
    unfold request_blood_button, try_except.
    destruct (request_flow ShownSuccess ShownFailure db bt amount ts
                (patient_rec name email age id phone amount bt today)
                q l ps Hq Hl Hps)
      as (ok & db1 & db' & Hrem & Hrun & Happ & Hno & Hyes).
    destruct (truthy name && truthy email); simpl.
    + exists ok, db1. eexists. exists db'. rewrite Hrun.
      split; [done|]. split; [reflexivity|]. split; [done|]. by split.
    + exists ok, db1, ShownMissingFields, db.
      repeat split; try done.
      intros H. by apply not_appended_same in H.
Qed.

Lemma record_iff_stock_mutation_witness :
  sequence "logs" (fresh Missing) = Some []
  ∧ sequence "donors" (fresh Missing) = Some []
  ∧ sequence "patients" (fresh Missing) = Some []
  ∧ current_quantity "B+" (fresh Missing) = Some 2000
  ∧ ∃ ok db1 db',
      add_blood "B+" 300 "2025-03-05 11:20:00" (fresh Missing) = Ok ok db1
      ∧ Donor.donate sample_donor "B+" "2025-03-05 11:20:00" (fresh Missing)
        = Ok ok db'
      ∧ (appended "donors" (Donor.record sample_donor "B+") (fresh Missing)
           db'
         ↔ ok = true)
      ∧ (ok = false → db' = fresh Missing)
      ∧ (ok = true → current_quantity "B+" db' = Some (2000 + 300)).
Proof.
  assert (sequence "logs" (fresh Missing) = Some []) as Hl
    by (vm_compute; reflexivity).
  assert (sequence "donors" (fresh Missing) = Some []) as Hds
    by (vm_compute; reflexivity).
  assert (sequence "patients" (fresh Missing) = Some []) as Hps
    by (vm_compute; reflexivity).
  assert (current_quantity "B+" (fresh Missing) = Some 2000) as Hq
    by (vm_compute; reflexivity).
  repeat (split; [assumption|]).
  exact (proj1 (record_iff_stock_mutation (fresh Missing) [] [] [] Hl Hds Hps)
           sample_donor "B+" "2025-03-05 11:20:00" 2000 Hq).
Defined.

(** ** The scenarios of the specification, run on the model *)

Example Database_init_missing : Database_init Missing = Ok tt (fresh Missing).
Proof. reflexivity. Qed.

Example Database_init_keeps_stored_stock :
  ∃ db',
    Database_init
      (Stored (JObj (<["inventory" := JObj (<["AB-" := JInt 300]> ∅)]> ∅)))
    = Ok tt db'
    ∧ entry "AB-" db' = Some (JInt 300)
    ∧ top "logs" db' = Some (JArr []).
Proof. eexists. split; [vm_compute; reflexivity|]. by split. Qed.

Example scenario_debit_too_much :
  remove_blood "O-" 2500 "2025-01-01 10:00:00" (fresh Missing)
  = Ok false (fresh Missing).
Proof. vm_compute. reflexivity. Qed.

Example scenario_debit_all :
  ∃ db',
    remove_blood "O-" 2000 "2025-01-01 10:00:00" (fresh Missing) = Ok true db'
    ∧ entry "O-" db' = Some (JInt 0)
    ∧ sequence "logs" db'
      = Some [JStr "2025-01-01 10:00:00 - Removed 2000ml from O- (remaining: 0 ml)"].
Proof. eexists. split; [vm_compute; reflexivity|]. by split. Qed.

Example scenario_request_all :
  ∃ db',
    Patient.request_blood
      (Patient.mk "Nour" "nour@example.org" 41 8 "0111" "O-" 2000)
      "2025-01-01 10:00:00" "2025-01-01" (fresh Missing) = Ok true db'
    ∧ entry "O-" db' = Some (JInt 0)
    ∧ ∃ rec, sequence "patients" db' = Some [rec].
Proof.
  eexists. split; [vm_compute; reflexivity|]. split; [done|]. by eexists.
Qed.

Example scenario_credit_unknown_type :
  add_blood "XX" 100 "2025-01-01 10:00:00" (fresh Missing)
  = Ok false (fresh Missing).
Proof. vm_compute. reflexivity. Qed.

Example scenario_credit :
  ∃ db',
    add_blood "AB+" 450 "2025-01-01 10:00:00" (fresh Missing) = Ok true db'
    ∧ entry "AB+" db' = Some (JInt 2450)
    ∧ sequence "logs" db'
      = Some [JStr "2025-01-01 10:00:00 - Added 450ml to AB+ (new: 2450 ml)"].
Proof. eexists. split; [vm_compute; reflexivity|]. by split. Qed.

Example fmt_date_pads :
  fmt_date 2025 3 5 = "2025-03-05" ∧ fmt_0d 4 (-5) = "-005"
  ∧ fmt_0d 2 123 = "123".
Proof. by vm_compute. Qed.

(** * Further properties of the code *)

(** ** Effects of the methods *)

Lemma effect_refl db : effect db db.
Proof. by left. Qed.

Lemma effect_trans db1 db2 db3 :
  effect db1 db2 → effect db2 db3 → effect db1 db3.
Proof.
  intros [->|(m & m' & Hd & -> & Hk & Hs)] H23; [done|].
  destruct H23 as [->|(m1 & m'' & Hd1 & -> & Hk' & Hs')].
  { right. by exists m, m'. }
  simpl in Hd1. injection Hd1 as <-.
  right. exists m, m''. split; [done|]. split; [done|]. split.
  - intros key Hin. by apply Hk', Hk.
  - intros key l Hl. destruct (Hs key l Hl) as [s1 H1].
    destruct (Hs' key _ H1) as [s2 H2].
    exists (s1 ++ s2)%list. by rewrite app_assoc.
Qed.

Lemma state_of_bind {A B} (m : M A) (k : A → M B) db :
  state_of (bind m k db)
  = match m db with
    | Ok a db' => state_of (k a db')
    | Raised _ db' => db'
    end.
Proof. unfold bind. by destruct (m db). Qed.

Lemma tidy_bind {A B} (m : M A) (k : A → M B) :
  tidy m → (∀ a, tidy (k a)) → tidy (bind m k).
Proof.
  intros Hm Hk db. rewrite state_of_bind.
  specialize (Hm db). destruct (m db) as [a db'|e db']; simpl in Hm; [|done].
  eapply effect_trans; [exact Hm | apply Hk].
Qed.

Lemma tidy_ret {A} (a : A) : tidy (ret a).
Proof. intros db. apply effect_refl. Qed.

Lemma tidy_lift {A} (r : exn + A) : tidy (lift r).
Proof. intros db. destruct r; apply effect_refl. Qed.

Lemma tidy_get_data : tidy get_data.
Proof. intros db. apply effect_refl. Qed.

Lemma tidy_if {A} (b : bool) (m1 m2 : M A) :
  tidy m1 → tidy m2 → tidy (if b then m1 else m2).
Proof. by destruct b. Qed.

Lemma tidy_try_except {A} (body : M A) (handler : exn → M A) :
  tidy body → (∀ e, tidy (handler e)) → tidy (try_except body handler).
Proof.
  intros Hb Hh db. unfold try_except. specialize (Hb db).
  destruct (body db) as [a db'|e db']; simpl in *; [done|].
  eapply effect_trans; [exact Hb | apply Hh].
Qed.

Lemma sequence_insert_ne_top key key' v m f f' :
  key' ≠ key →
  sequence key {| data := JObj (<[key' := v]> m); disk := f |}
  = sequence key {| data := JObj m; disk := f' |}.
Proof. intros Hne. unfold sequence. simpl. by rewrite lookup_insert_ne. Qed.

(** Writing a value under a top-level key and saving: a tidy step when the
    value keeps what the sequence under the key held. *)
Lemma effect_write_save db m key v :
  data db = JObj m →
  (∀ l, sequence key db = Some l →
        ∃ suffix, v = JArr (l ++ suffix)) →
  let d' := JObj (<[key := v]> m) in
  effect db {| data := d'; disk := Stored d' |}.
Proof.
  intros Hd Hv. right. exists m, (<[key := v]> m).
  split; [done|]. split; [done|]. split.
  - intros k Hin. destruct (decide (key = k)) as [->|Hne].
    + rewrite lookup_insert_eq. by eexists.
    + by rewrite lookup_insert_ne.
  - intros k l Hl. destruct (decide (key = k)) as [->|Hne].
    + destruct (Hv l Hl) as [suffix ->]. exists suffix.
      apply sequence_insert_same.
    + exists []. rewrite app_nil_r.
      rewrite (sequence_insert_ne_top _ _ _ _ _ (disk db)) by done.
      destruct db as [d f]. simpl in *. by subst d.
Qed.

Lemma tidy_append_save {A} key x (k : M A) :
  tidy k → tidy (do setdefault_append key x then do save then k).
Proof.
  intros Hk db. rewrite state_of_bind.
  destruct (sequence key db) as [l|] eqn:Hl.
  - assert (∃ m, data db = JObj m) as [m Hd].
    { unfold sequence in Hl. destruct (data db); try done. by eexists. }
    rewrite (record_run key x db l m Hd Hl).
    rewrite state_of_bind. unfold save at 1. simpl.
    eapply effect_trans; [|apply Hk].
    apply (effect_write_save db m key); [done|].
    intros l' Hl'. rewrite Hl in Hl'. injection Hl' as <-. by eexists.
  - assert (setdefault_append key x db = Raised AttributeError db) as ->.
    { unfold sequence in Hl. unfold setdefault_append. run_methods.
      destruct (data db) as [| | | | |m]; try done.
      by destruct (m !! key) as [[]|]. }
    apply effect_refl.
Qed.

Lemma tidy_log ts entry : tidy (log ts entry).
Proof.
  intros db.
  pose proof (tidy_append_save "logs" (JStr (ts ++ " - " ++ entry))
                (ret tt) (tidy_ret tt) db) as H.
  unfold log. rewrite !state_of_bind in *.
  destruct (setdefault_append _ _ db) as [[] db1|e db1]; [|done].
  rewrite state_of_bind in H. by unfold save, ret in *.
Qed.

Lemma inventory_setitem_cases btype q db :
  (∃ e, inventory_setitem btype q db = Raised e db)
  ∨ ∃ m inv,
      data db = JObj m ∧ m !! "inventory" = Some (JObj inv)
      ∧ inventory_setitem btype q db
        = Ok tt {| data := JObj (<["inventory" :=
                                     JObj (<[btype := JInt q]> inv)]> m);
                   disk := disk db |}.
Proof.
  destruct db as [d f]. unfold inventory_setitem. run_methods.
  destruct d as [| | | | |m]; try (left; by eexists). simpl.
  destruct (m !! "inventory") as [[| | | | |inv]|] eqn:Hi; simpl;
    try (left; by eexists).
  right. by exists m, inv.
Qed.

Lemma tidy_setitem_save {A} btype q (k : M A) :
  tidy k → tidy (do inventory_setitem btype q then do save then k).
Proof.
  intros Hk db. rewrite state_of_bind.
  destruct (inventory_setitem_cases btype q db)
    as [[e ->]|(m & inv & Hd & Hi & ->)]; [apply effect_refl|].
  rewrite state_of_bind. unfold save at 1. simpl.
  eapply effect_trans; [|apply Hk].
  apply (effect_write_save db m "inventory"); [done|].
  intros l Hl. unfold sequence in Hl. by rewrite Hd, Hi in Hl.
Qed.

Lemma tidy_add_blood btype amount ts : tidy (add_blood btype amount ts).
Proof.
  unfold add_blood. apply tidy_if; [apply tidy_ret|].
  apply tidy_bind; [apply tidy_bind; [apply tidy_get_data|]|].
  { intros d. apply tidy_lift. }
  intros inv. apply tidy_bind; [apply tidy_lift|]. intros c.
  apply tidy_bind; [apply tidy_lift|]. intros q.
  apply tidy_setitem_save.
  apply tidy_bind; [apply tidy_log | intros; apply tidy_ret].
Qed.

Lemma tidy_remove_blood btype amount ts : tidy (remove_blood btype amount ts).
Proof.
  unfold remove_blood. apply tidy_if; [apply tidy_ret|].
  apply tidy_bind; [apply tidy_bind; [apply tidy_get_data|]|].
  { intros d. apply tidy_lift. }
  intros inv. apply tidy_bind; [apply tidy_lift|]. intros c.
  apply tidy_bind; [apply tidy_lift|]. intros q.
  apply tidy_if; [apply tidy_ret|].
  apply tidy_setitem_save.
  apply tidy_bind; [apply tidy_log | intros; apply tidy_ret].
Qed.

Lemma tidy_donate self bt ts : tidy (Donor.donate self bt ts).
Proof.
  unfold Donor.donate. apply tidy_if; [apply tidy_ret|].
  apply tidy_bind; [apply tidy_add_blood|]. intros ok.
  apply tidy_if; [|apply tidy_ret].
  apply tidy_append_save, tidy_ret.
Qed.

Lemma tidy_request_blood self ts today :
  tidy (Patient.request_blood self ts today).
Proof.
  unfold Patient.request_blood.
  apply tidy_bind; [apply tidy_remove_blood|]. intros ok.
  apply tidy_if; [|apply tidy_ret].
  apply tidy_append_save, tidy_ret.
Qed.

Lemma tidy_complete_donation n e a i p amount d m y bt ts :
  tidy (complete_donation n e a i p amount d m y bt ts).
Proof.
  unfold complete_donation.
  apply tidy_try_except; [|intros; apply tidy_ret].
  apply tidy_if; [|apply tidy_ret].
  apply tidy_bind; [apply tidy_add_blood|]. intros ok.
  apply tidy_if; [|apply tidy_ret].
  apply tidy_append_save, tidy_ret.
Qed.

Lemma tidy_request_blood_button n e a i p bt amount ts today :
  tidy (request_blood_button n e a i p bt amount ts today).
Proof.
  unfold request_blood_button.
  apply tidy_try_except; [|intros; apply tidy_ret].
  apply tidy_if; [|apply tidy_ret].
  apply tidy_bind; [apply tidy_remove_blood|]. intros ok.
  apply tidy_if; [|apply tidy_ret].
  apply tidy_append_save, tidy_ret.
Qed.

Lemma tidy_reports_page ts : tidy (reports_page ts).
Proof.
  unfold reports_page.
  apply tidy_bind; [apply tidy_get_data|]. intros d.
  do 8 (apply tidy_bind; [apply tidy_lift|]; intros ?).
  apply tidy_bind; [apply tidy_log | intros; apply tidy_ret].
Qed.

Lemma effect_perform a db : effect db (perform a db).
Proof.
  destruct a; simpl.
  - apply tidy_add_blood.
  - apply tidy_remove_blood.
  - apply tidy_log.
  - apply tidy_donate.
  - apply tidy_request_blood.
  - apply tidy_complete_donation.
  - apply tidy_request_blood_button.
  - apply tidy_reports_page.
Qed.

Lemma effect_perform_all acts : ∀ db, effect db (perform_all acts db).
Proof.
  induction acts as [|a acts IH]; intros db; simpl; [apply effect_refl|].
  eapply effect_trans; [apply effect_perform | apply IH].
Qed.

(** ** The file and the document *)

Lemma effect_synced db db' : synced db → effect db db' → synced db'.
Proof. intros Hs [->|(m & m' & _ & -> & _)]; done. Qed.

Lemma ensure_key_non_dict key value changed d f :
  (∀ m, d ≠ JObj m) →
  ensure_key key value changed {| data := d; disk := f |}
  = match py_contains key d with
    | inr true => Ok changed {| data := d; disk := f |}
    | _ => Raised TypeError {| data := d; disk := f |}
    end.
Proof.
  intros Hd. unfold ensure_key. run_methods.
  destruct d as [| | | | |m]; try done.
  - simpl. by destruct (bool_decide _).
  - simpl. by destruct (existsb _ _).
  - by destruct (Hd m).
Qed.

Lemma ensure_structure_non_dict d f :
  (∀ m, d ≠ JObj m) →
  ensure_structure {| data := d; disk := f |}
  = if contains_all d then Ok tt {| data := d; disk := f |}
    else Raised TypeError {| data := d; disk := f |}.
Proof.
  intros Hd. unfold ensure_structure, contains_all, top_level_keys. simpl.
  unfold bind at 1. rewrite ensure_key_non_dict by done.
  destruct (py_contains "inventory" d) as [e|[]]; try done.
  unfold bind at 1. rewrite ensure_key_non_dict by done.
  destruct (py_contains "donors" d) as [e|[]]; try done.
  unfold bind at 1. rewrite ensure_key_non_dict by done.
  destruct (py_contains "patients" d) as [e|[]]; try done.
  unfold bind at 1. rewrite ensure_key_non_dict by done.
  by destruct (py_contains "logs" d) as [e|[]].
Qed.

Lemma ensure_structure_dict_disk m f :
  ∃ f', ensure_structure {| data := JObj m; disk := f |}
        = Ok tt {| data := JObj (filled m); disk := f' |}
    ∧ (f' = Stored (JObj (filled m)) ∨ (f' = f ∧ filled m = m)).
Proof.
  unfold ensure_structure. unfold bind at 1.
  rewrite ensure_key_dict. unfold bind at 1.
  rewrite ensure_key_dict. unfold bind at 1.
  rewrite ensure_key_dict. unfold bind at 1.
  rewrite ensure_key_dict. fold (filled m).
  match goal with |- context [if ?c then _ else _] => destruct c eqn:Hc end.
  - eexists. split; [reflexivity|]. by left.
  - eexists. split; [reflexivity|]. right. split; [done|].
    apply orb_false_elim in Hc as [Hc H4].
    apply orb_false_elim in Hc as [Hc H3].
    apply orb_false_elim in Hc as [Hc H2].
    apply orb_false_elim in Hc as [_ H1].
    apply bool_decide_eq_false in H1, H2, H3, H4.
    unfold filled.
    assert (∀ key value (m0 : gmap string json),
              m0 !! key ≠ None → fill key value m0 = m0) as Hfill.
    { intros key value m0 Hne. unfold fill. by destruct (m0 !! key). }
    rewrite (Hfill "inventory") in * by done.
    rewrite (Hfill "donors") in * by done.
    rewrite (Hfill "patients") in * by done.
    by rewrite (Hfill "logs").
Qed.

Lemma is_dict_dec (d : json) : (∃ m, d = JObj m) ∨ (∀ m, d ≠ JObj m).
Proof. destruct d; try (by right); left; by eexists. Qed.

Lemma ensure_structure_synced db :
  synced db → synced (state_of (ensure_structure db)).
Proof.
  destruct db as [d f]. intros Hs.
  destruct (is_dict_dec d) as [[m ->]|Hd].
  - destruct (ensure_structure_dict_disk m f) as (f' & -> & [->|[-> Hm]]);
      [done|]. unfold synced in *. simpl in *. by rewrite Hm.
  - rewrite ensure_structure_non_dict by done. by destruct (contains_all d).
Qed.

Lemma load_synced d f : synced (state_of (load {| data := d; disk := f |})).
Proof.
  destruct f as [| |v]; [done|done|].
  unfold load. simpl. rewrite state_of_bind. unfold set_data at 1. simpl.
  by apply ensure_structure_synced.
Qed.


Lemma ensure_structure_settled db :
  ensure_structure db = Ok tt db →
  ∀ db', effect db db' → ensure_structure db' = Ok tt db'.
Proof.
  intros Hrun db' [->|(m & m' & Hd & -> & Hk & _)]; [done|].
  apply ensure_structure_complete.
  destruct db as [d f]. simpl in Hd. subst d.
  destruct (ensure_structure_dict_disk m f) as (f' & Hrun' & _).
  rewrite Hrun in Hrun'. injection Hrun' as Hm _.
  pose proof (filled_complete m) as Hc. rewrite <- Hm in Hc.
  eapply Forall_impl; [exact Hc|]. intros key. apply Hk.
Qed.

Lemma load_settled d f db :
  load {| data := d; disk := f |} = Ok tt db →
  ensure_structure db = Ok tt db.
Proof.
  intros Hrun.
  assert (∀ v f0, ensure_structure {| data := v; disk := f0 |} = Ok tt db →
                  ensure_structure db = Ok tt db) as Hgen.
  { clear. intros v f0 Hrun. destruct (is_dict_dec v) as [[m ->]|Hv].
    - destruct (ensure_structure_dict_disk m f0) as (f' & Hrun' & _).
      rewrite Hrun in Hrun'. injection Hrun' as ->.
      apply ensure_structure_complete, filled_complete.
    - rewrite ensure_structure_non_dict in Hrun by done.
      destruct (contains_all v) eqn:Hc; [|done]. injection Hrun as <-.
      rewrite ensure_structure_non_dict by done. by rewrite Hc. }
  destruct f as [| |v]; unfold load in Hrun; simpl in Hrun;
    unfold bind, set_data in Hrun; simpl in Hrun; eauto.
Qed.

(** X2: when [load] has returned, then after any sequence of actions a
    new [Database] built on the file finds exactly the document the old
    one has in memory: nothing is lost and nothing is defaulted again. *)
Theorem reload_finds_document d f db0 acts :
  load {| data := d; disk := f |} = Ok tt db0 →
  Database_init (disk (perform_all acts db0))
  = Ok tt (perform_all acts db0).
Proof.
  intros Hload.
  pose proof (effect_perform_all acts db0) as Heff.
  assert (synced (perform_all acts db0)) as Hs.
  { eapply effect_synced; [|exact Heff].
    pose proof (load_synced d f) as H. by rewrite Hload in H. }
  pose proof (ensure_structure_settled db0 (load_settled _ _ _ Hload)
                _ Heff) as Hrun.
  destruct (perform_all acts db0) as [d' f']. unfold synced in Hs.
  simpl in Hs. subst f'. unfold Database_init, load. simpl.
  unfold bind, set_data. simpl. exact Hrun.
Qed.

Lemma reload_finds_document_witness :
  load {| data := JNull; disk := Missing |} = Ok tt (fresh Missing)
  ∧ Database_init
      (disk (perform_all
               [Donate sample_donor "O+" "2025-03-05 11:20:00";
                Remove_blood "O+" 100 "2025-03-05 11:25:00"]
               (fresh Missing)))
    = Ok tt (perform_all
               [Donate sample_donor "O+" "2025-03-05 11:20:00";
                Remove_blood "O+" 100 "2025-03-05 11:25:00"]
               (fresh Missing)).
Proof.
  assert (load {| data := JNull; disk := Missing |} = Ok tt (fresh Missing))
    as H by reflexivity.
  split; [exact H|].
  exact (reload_finds_document JNull Missing (fresh Missing) _ H).
Defined.

(** X3: no action ever removes or rewrites what a top-level sequence
    holds: after any sequence of actions the logs, the donors and the
    patients are what they were with entries added at the end, and no
    top-level key of the document is lost. *)
Theorem records_only_grow acts db key l :
  sequence key db = Some l →
  (∃ suffix, sequence key (perform_all acts db) = Some (l ++ suffix)%list)
  ∧ (∀ key', is_Some (top key' db) →
             is_Some (top key' (perform_all acts db))).
Proof.
  intros Hl.
  destruct (effect_perform_all acts db) as [->|(m & m' & Hd & -> & Hk & Hs)].
  - split; [|done]. exists []. by rewrite app_nil_r.
  - split; [by apply Hs|]. intros key'. unfold top. rewrite Hd. apply Hk.
Qed.

Lemma records_only_grow_witness :
  (∃ suffix,
     sequence "donors"
       (perform_all [Donate sample_donor "O+" "2025-03-05 11:20:00"]
          (fresh Missing))
     = Some ([] ++ suffix)%list)
  ∧ (∀ key', is_Some (top key' (fresh Missing)) →
       is_Some (top key'
                  (perform_all [Donate sample_donor "O+" "2025-03-05 11:20:00"]
                     (fresh Missing)))).
Proof.
  apply (records_only_grow
           [Donate sample_donor "O+" "2025-03-05 11:20:00"]
           (fresh Missing) "donors" []).
  reflexivity.
Defined.

(** ** Error and edge behaviour of the store and the ledger *)

(** X4: on a dict document whose logs are a list, or are missing, [log]
    appends the one entry ["<timestamp> - <entry>"] (creating the list
    when it was missing), changes no other key and saves; on any other
    document it raises [AttributeError] and changes nothing. *)
Theorem log_appends_one_entry db ts entry :
  match sequence "logs" db with
  | Some l =>
      ∃ m, data db = JObj m
        ∧ log ts entry db
          = Ok tt
              {| data := JObj (<["logs" :=
                                   JArr (l ++ [JStr (ts ++ " - " ++ entry)])]> m);
                 disk := Stored (JObj (<["logs" :=
                                   JArr (l ++ [JStr (ts ++ " - " ++ entry)])]> m))
              |}
  | None => log ts entry db = Raised AttributeError db
  end.
Proof.
  destruct (sequence "logs" db) as [l|] eqn:Hl.
  - assert (∃ m, data db = JObj m) as [m Hd].
    { unfold sequence in Hl. destruct (data db); try done. by eexists. }
    exists m. split; [done|]. unfold log, bind.
    by rewrite (record_run "logs" _ db l m Hd Hl).
  - unfold sequence in Hl. unfold log. run_methods.
    destruct db as [d f]. simpl in *.
    destruct d as [| | | | |m]; try done.
    by destruct (m !! "logs") as [[]|].
Qed.

(** X5: when the entry for the type cannot be read as a number (the
    document is no dict, it has no inventory, the inventory is no dict, or
    the entry is no number), a call of [add_blood] or [remove_blood] with
    a valid type and a positive amount raises and changes nothing. *)
Theorem ledger_raises_before_writing db btype amount ts :
  btype ∈ VALID_TYPES → 0 < amount →
  current_quantity btype db = None →
  (∃ e, add_blood btype amount ts db = Raised e db)
  ∧ (∃ e, remove_blood btype amount ts db = Raised e db).
Proof.
  intros Hv Ha Hq. apply valid_type_spec in Hv.
  unfold add_blood, remove_blood.
  rewrite Hv, bool_decide_eq_false_2 by lia. simpl.
  rewrite quantity_unfold in Hq. destruct db as [d f]. simpl in Hq.
  run_methods.
  destruct d as [| | | | |m]; simpl; try (split; by eexists).
  destruct (m !! "inventory") as [[| | | | |inv]|]; simpl;
    try (split; by eexists).
  destruct (as_int (default (JInt 0) (inv !! btype))); [|done].
  simpl. split; by eexists.
Qed.

Lemma ledger_raises_before_writing_witness :
  (∃ e, add_blood "A+" 100 "2025-01-01 10:00:00"
          {| data := JObj ∅; disk := Missing |}
        = Raised e {| data := JObj ∅; disk := Missing |})
  ∧ (∃ e, remove_blood "A+" 100 "2025-01-01 10:00:00"
            {| data := JObj ∅; disk := Missing |}
          = Raised e {| data := JObj ∅; disk := Missing |}).
Proof.
  apply (ledger_raises_before_writing
           {| data := JObj ∅; disk := Missing |} "A+" 100
           "2025-01-01 10:00:00").
  - apply valid_type_spec. vm_compute. reflexivity.
  - lia.
  - reflexivity.
Defined.

(** X6: when the logs are present and are no list, a valid [add_blood] or
    a [remove_blood] that is in stock writes the new quantity, saves it
    and only then raises [AttributeError]: the stock has changed and no
    log entry tells. *)
Theorem ledger_write_survives_log_failure db btype amount ts m inv q :
  btype ∈ VALID_TYPES → 0 < amount →
  data db = JObj m → m !! "inventory" = Some (JObj inv) →
  as_int (default (JInt 0) (inv !! btype)) = inr q →
  sequence "logs" db = None →
  add_blood btype amount ts db
  = Raised AttributeError
      {| data := JObj (<["inventory" :=
                           JObj (<[btype := JInt (q + amount)]> inv)]> m);
         disk := Stored (JObj (<["inventory" :=
                           JObj (<[btype := JInt (q + amount)]> inv)]> m)) |}
  ∧ (amount ≤ q →
     remove_blood btype amount ts db
     = Raised AttributeError
         {| data := JObj (<["inventory" :=
                              JObj (<[btype := JInt (q - amount)]> inv)]> m);
            disk := Stored (JObj (<["inventory" :=
                              JObj (<[btype := JInt (q - amount)]> inv)]> m)) |}).
Proof.
  intros Hv Ha Hd Hi Hq Hl. apply valid_type_spec in Hv.
  destruct db as [d f]. simpl in Hd. subst d.
  unfold sequence in Hl. simpl in Hl.
  unfold add_blood, remove_blood.
  rewrite Hv, bool_decide_eq_false_2 by lia. simpl.
  run_methods. rewrite Hi. simpl. rewrite Hq. simpl. rewrite Hi. simpl.
  rewrite lookup_insert_ne by done.
  split.
  - by destruct (m !! "logs") as [[]|].
  - intros Hle. rewrite bool_decide_eq_false_2 by lia. simpl.
    rewrite Hi. simpl. rewrite lookup_insert_ne by done.
    by destruct (m !! "logs") as [[]|].
Qed.

Lemma ledger_write_survives_log_failure_witness :
  add_blood "B-" 200 "2025-01-01 10:00:00"
    {| data := JObj (<["logs" := JStr "none"]>
                       (<["inventory" := JObj (<["B-" := JInt 700]> ∅)]> ∅));
       disk := Missing |}
  = Raised AttributeError
      {| data := JObj (<["inventory" :=
                           JObj (<["B-" := JInt (700 + 200)]>
                                   (<["B-" := JInt 700]> ∅))]>
                         (<["logs" := JStr "none"]>
                            (<["inventory" :=
                                 JObj (<["B-" := JInt 700]> ∅)]> ∅)));
         disk := Stored
                   (JObj (<["inventory" :=
                              JObj (<["B-" := JInt (700 + 200)]>
                                      (<["B-" := JInt 700]> ∅))]>
                            (<["logs" := JStr "none"]>
                               (<["inventory" :=
                                    JObj (<["B-" := JInt 700]> ∅)]> ∅)))) |}.
Proof.
  apply (ledger_write_survives_log_failure _ "B-" 200 _ _
           (<["B-" := JInt 700]> ∅) 700).
  - apply valid_type_spec. vm_compute. reflexivity.
  - lia.
  - reflexivity.
  - reflexivity.
  - reflexivity.
  - reflexivity.
Defined.

(** X7: on a file that holds JSON which is no object, [load] writes
    nothing: it returns with the stored value as the document when each of
    the four key names is found in it by [in] (as an element of a list, as
    a substring of a string), and raises [TypeError] otherwise. *)
Theorem load_on_non_object d v :
  (∀ m, v ≠ JObj m) →
  load {| data := d; disk := Stored v |}
  = if contains_all v
    then Ok tt {| data := v; disk := Stored v |}
    else Raised TypeError {| data := v; disk := Stored v |}.
Proof.
  intros Hv. unfold load. simpl. unfold bind at 1, set_data at 1. simpl.
  by apply ensure_structure_non_dict.
Qed.

Lemma load_on_non_object_witness :
  load {| data := JObj ∅;
          disk := Stored (JArr [JStr "logs"; JStr "inventory";
                                JStr "patients"; JStr "donors"]) |}
  = if contains_all (JArr [JStr "logs"; JStr "inventory";
                           JStr "patients"; JStr "donors"])
    then Ok tt {| data := JArr [JStr "logs"; JStr "inventory";
                                JStr "patients"; JStr "donors"];
                  disk := Stored (JArr [JStr "logs"; JStr "inventory";
                                        JStr "patients"; JStr "donors"]) |}
    else Raised TypeError
           {| data := JArr [JStr "logs"; JStr "inventory";
                            JStr "patients"; JStr "donors"];
              disk := Stored (JArr [JStr "logs"; JStr "inventory";
                                    JStr "patients"; JStr "donors"]) |}.
Proof. apply (load_on_non_object (JObj ∅)). intros m. discriminate. Defined.

(** X8: a valid type that the inventory dict lacks counts as 0: a
    [remove_blood] of a positive amount fails and changes nothing, and an
    [add_blood] of a positive amount stores exactly that amount. *)
Theorem missing_type_counts_as_zero db btype amount ts m inv l :
  btype ∈ VALID_TYPES → 0 < amount →
  data db = JObj m → m !! "inventory" = Some (JObj inv) →
  inv !! btype = None → sequence "logs" db = Some l →
  remove_blood btype amount ts db = Ok false db
  ∧ ∃ db', add_blood btype amount ts db = Ok true db'
           ∧ entry btype db' = Some (JInt amount).
Proof.
  intros Hv Ha Hd Hi Hb Hl. apply valid_type_spec in Hv.
  assert (as_int (default (JInt 0) (inv !! btype)) = inr 0) as Hq
    by by rewrite Hb.
  split.
  - apply (remove_blood_short _ _ _ _ 0); try done.
    by apply (quantity_of_shape _ _ _ m inv).
  - eexists. split; [by eapply add_blood_run|].
    unfold entry, inventory, top. simpl.
    rewrite lookup_insert_ne by done. rewrite lookup_insert_eq. simpl.
    by rewrite lookup_insert_eq.
Qed.

Lemma missing_type_counts_as_zero_witness :
  remove_blood "O-" 50 "2025-01-01 10:00:00"
    {| data := JObj (<["inventory" := JObj ∅]> ∅); disk := Missing |}
  = Ok false {| data := JObj (<["inventory" := JObj ∅]> ∅); disk := Missing |}
  ∧ ∃ db', add_blood "O-" 50 "2025-01-01 10:00:00"
             {| data := JObj (<["inventory" := JObj ∅]> ∅); disk := Missing |}
           = Ok true db'
           ∧ entry "O-" db' = Some (JInt 50).
Proof.
  apply (missing_type_counts_as_zero _ "O-" 50 _
           (<["inventory" := JObj ∅]> ∅) ∅ []).
  - apply valid_type_spec. vm_compute. reflexivity.
  - lia.
  - reflexivity.
  - reflexivity.
  - reflexivity.
  - reflexivity.
Defined.

(** ** Console input *)




Lemma read_donated_amount_spec ins :
  match read_donated_amount ins with
  | Some (amount, rest) => 50 ≤ amount ≤ 500 ∧ ∃ used, ins = (used ++ rest)%list
  | None => Forall (λ l, ∀ a, int_value l = Some a → ¬ 50 ≤ a ≤ 500) ins
  end.
Proof.
  induction ins as [|l ins IH]; simpl; [done|].
  destruct (int_value l) as [a|] eqn:Hl.
  - case_bool_decide as Ha.
    + split; [done|]. by exists [l].
    + destruct (read_donated_amount ins) as [[amount rest]|].
      * destruct IH as [? [used ->]]. split; [done|]. by exists (l :: used).
      * constructor; [|done]. intros a' Ha'. congruence.
  - destruct (read_donated_amount ins) as [[amount rest]|].
    + destruct IH as [? [used ->]]. split; [done|]. by exists (l :: used).
    + constructor; [|done]. intros a' Ha'. congruence.
Qed.

Lemma read_date_spec ins :
  ∀ d m y rest,
    read_date ins = Some (d, m, y, rest) →
    datetime_ok y m d = true ∧ ∃ used, ins = (used ++ rest)%list.
Proof.
  remember (length ins) as n eqn:Hn. revert ins Hn.
  induction n as [n IH] using lt_wf_ind. intros ins Hn d m y rest.
  assert (∀ ins' used', ins = (used' ++ ins')%list → used' ≠ [] →
            read_date ins' = Some (d, m, y, rest) →
            datetime_ok y m d = true ∧ ∃ used, ins = (used ++ rest)%list)
    as Hrec.
  { intros ins' used' -> Hne Hrun.
    destruct (IH (length ins')) with (ins := ins') (d := d) (m := m)
      (y := y) (rest := rest) as [Hok [used ->]]; try done.
    - rewrite Hn, length_app. destruct used'; [done|]. simpl. lia.
    - split; [done|]. exists (used' ++ used)%list. by rewrite app_assoc. }
  destruct ins as [|ld ins1]; simpl; [done|].
  destruct (int_value ld) as [dv|];
    [|by apply (Hrec ins1 [ld])].
  destruct ins1 as [|lm ins2]; [done|].
  destruct (int_value lm) as [mv|];
    [|by apply (Hrec ins2 [ld; lm])].
  destruct ins2 as [|ly ins3]; [done|].
  destruct (int_value ly) as [yv|];
    [|by apply (Hrec ins3 [ld; lm; ly])].
  destruct (datetime_ok yv mv dv) eqn:Hok;
    [|by apply (Hrec ins3 [ld; lm; ly])].
  intros [= <- <- <- <-]. split; [done|]. by exists [ld; lm; ly].
Qed.

(** X10: when [Donor.donation_data] returns, the donated amount is from
    50 to 500 ml, day, month and year form a date that [datetime] accepts,
    and the other attributes are untouched; four lines that hold such an
    amount and such a date are taken at once, and a first line that is no
    integer from 50 to 500 is asked again. *)
Theorem donation_data_validates self :
  (∀ ins self' rest,
     donation_data self ins = Some (self', rest) →
     50 ≤ Donor.donated_amount self' ≤ 500
     ∧ datetime_ok (Donor.year self') (Donor.month self') (Donor.day self')
       = true
     ∧ Donor.name self' = Donor.name self
     ∧ Donor.email self' = Donor.email self
     ∧ Donor.age self' = Donor.age self
     ∧ Donor.id self' = Donor.id self
     ∧ Donor.phone self' = Donor.phone self
     ∧ ∃ used, ins = (used ++ rest)%list)
  ∧ (∀ ta amount td d tm m ty y rest,
       50 ≤ amount ≤ 500 → datetime_ok y m d = true →
       donation_data self
         (mkLine ta (Some amount) :: mkLine td (Some d) :: mkLine tm (Some m)
          :: mkLine ty (Some y) :: rest)
       = Some (Donor.mk (Donor.name self) (Donor.email self) (Donor.age self)
                 (Donor.id self) (Donor.phone self) d m y amount, rest))
  ∧ (∀ l ins,
       (∀ a, int_value l = Some a → ¬ 50 ≤ a ≤ 500) →
       donation_data self (l :: ins) = donation_data self ins).
Proof.
  split; [|split].
  - intros ins self' rest. unfold donation_data.
    pose proof (read_donated_amount_spec ins) as Ha.
    destruct (read_donated_amount ins) as [[amount ins1]|]; simpl; [|done].
    destruct Ha as [Ha [used1 ->]].
    destruct (read_date ins1) as [[[[d m] y] ins2]|] eqn:Hd; simpl; [|done].
    apply read_date_spec in Hd as [Hok [used2 ->]].
    intros [= <- <-]. simpl. repeat split; try done; try lia.
    exists (used1 ++ used2)%list. by rewrite app_assoc.
  - intros ta amount td d tm m ty y rest Ha Hok. unfold donation_data. simpl.
    rewrite bool_decide_eq_true_2 by done. simpl. by rewrite Hok.
  - intros l ins Hl. unfold donation_data. simpl.
    destruct (int_value l) as [a|]; [|done].
    by rewrite bool_decide_eq_false_2 by by apply Hl.
Qed.

Lemma read_required_amount_spec ins :
  match read_required_amount ins with
  | Some (amount, rest) => 0 < amount ∧ ∃ used, ins = (used ++ rest)%list
  | None => Forall (λ l, ∀ a, int_value l = Some a → a ≤ 0) ins
  end.
Proof.
  induction ins as [|l ins IH]; simpl; [done|].
  destruct (int_value l) as [a|] eqn:Hl.
  - case_bool_decide as Ha.
    + split; [lia|]. by exists [l].
    + destruct (read_required_amount ins) as [[amount rest]|].
      * destruct IH as [? [used ->]]. split; [done|]. by exists (l :: used).
      * constructor; [|done]. intros a' Ha'. assert (a' = a) by congruence. lia.
  - destruct (read_required_amount ins) as [[amount rest]|].
    + destruct IH as [? [used ->]]. split; [done|]. by exists (l :: used).
    + constructor; [|done]. intros a' Ha'. congruence.
Qed.

Lemma read_blood_type_spec ins :
  match read_blood_type ins with
  | Some (bt, rest) => bt ∈ VALID_TYPES ∧ ∃ used, ins = (used ++ rest)%list
  | None => Forall (λ l, text l ∉ VALID_TYPES) ins
  end.
Proof.
  induction ins as [|l ins IH]; simpl; [done|].
  destruct (valid_type (text l)) eqn:Hv.
  - split; [by apply valid_type_spec|]. by exists [l].
  - apply valid_type_false in Hv.
    destruct (read_blood_type ins) as [[bt rest]|].
    + destruct IH as [? [used ->]]. split; [done|]. by exists (l :: used).
    + by constructor.
Qed.


(** ** Validated input meets the ledger *)

Lemma donation_data_amount self ins self' rest :
  donation_data self ins = Some (self', rest) →
  50 ≤ Donor.donated_amount self' ≤ 500.
Proof.
  unfold donation_data.
  pose proof (read_donated_amount_spec ins) as Ha.
  destruct (read_donated_amount ins) as [[amount ins1]|]; simpl; [|done].
  destruct Ha as [Ha _].
  destruct (read_date ins1) as [[[[d m] y] ins2]|]; simpl; [|done].
  by intros [= <- <-].
Qed.

Lemma patient_data_amount_type self ins self' rest :
  patient_data self ins = Some (self', rest) →
  0 < Patient.required_amount self'
  ∧ Patient.blood_type self' ∈ VALID_TYPES.
Proof.
  unfold patient_data.
  pose proof (read_required_amount_spec ins) as Ha.
  destruct (read_required_amount ins) as [[amount ins1]|]; simpl; [|done].
  destruct Ha as [Ha _].
  pose proof (read_blood_type_spec ins1) as Hb.
  destruct (read_blood_type ins1) as [[bt ins2]|]; simpl; [|done].
  destruct Hb as [Hb _]. by intros [= <- <-].
Qed.

(** X12: a donor whose amount and date [donation_data] accepted and who
    names a valid blood type is never turned down: on a document with a
    numeric stock for the type and appendable logs and donors, [donate]
    returns [True], the stock grows by the amount and the record is the
    new last donor. *)
Theorem validated_donation_is_recorded self ins self' rest bt ts db q l ds :
  donation_data self ins = Some (self', rest) →
  bt ∈ VALID_TYPES →
  current_quantity bt db = Some q →
  sequence "logs" db = Some l → sequence "donors" db = Some ds →
  ∃ db',
    Donor.donate self' bt ts db = Ok true db'
    ∧ sequence "donors" db' = Some (ds ++ [Donor.record self' bt])%list
    ∧ current_quantity bt db' = Some (q + Donor.donated_amount self').
Proof.
  intros Hin Hv Hq Hl Hds.
  pose proof (donation_data_amount _ _ _ _ Hin) as Ha.
  apply valid_type_spec in Hv.
  destruct (quantity_shape _ _ _ Hq) as (m & inv & Hd & Hi & Hc).
  pose proof (add_blood_run db bt (Donor.donated_amount self') ts q l m inv
                Hv ltac:(lia) Hd Hi Hc Hl) as Hadd. simpl in Hadd.
  destruct (donation_flow true false db bt (Donor.donated_amount self') ts
              (Donor.record self' bt) q l ds Hq Hl Hds)
    as (ok & db1 & db' & Hadd' & Hrun & Happ & _ & Hyes).
  rewrite Hadd in Hadd'. injection Hadd' as <- _.
  exists db'. unfold Donor.donate. rewrite Hv. simpl.
  split; [exact Hrun|]. split; [|by apply Hyes].
  destruct (proj2 Happ eq_refl) as (l0 & Hl0 & Hl1).
  rewrite Hds in Hl0. by injection Hl0 as <-.
Qed.

Lemma validated_donation_is_recorded_witness :
  ∃ db',
    Donor.donate
      (Donor.mk "Amal" "amal@example.org" 34 17 "0100" 29 2 2024 450)
      "O-" "2024-02-29 09:00:00" (fresh Missing) = Ok true db'
    ∧ sequence "donors" db'
      = Some ([] ++ [Donor.record
                       (Donor.mk "Amal" "amal@example.org" 34 17 "0100"
                          29 2 2024 450) "O-"])%list
    ∧ current_quantity "O-" db'
      = Some (2000 + Donor.donated_amount
                       (Donor.mk "Amal" "amal@example.org" 34 17 "0100"
                          29 2 2024 450)).
Proof.
  apply (validated_donation_is_recorded
           (Donor.mk "Amal" "amal@example.org" 34 17 "0100" 0 0 0 0)
           [mkLine "45" (Some 45); mkLine "450" (Some 450);
            mkLine "30" (Some 30); mkLine "2" (Some 2);
            mkLine "2024" (Some 2024); mkLine "29" (Some 29);
            mkLine "2" (Some 2); mkLine "2024" (Some 2024)]
           _ [] "O-" "2024-02-29 09:00:00" (fresh Missing) 2000 [] []).
  - reflexivity.
  - apply valid_type_spec. vm_compute. reflexivity.
  - vm_compute. reflexivity.
  - reflexivity.
  - reflexivity.
Defined.

(** X13: a patient whose amount and blood type [patient_data] accepted is
    turned down only for lack of stock: on a document with a numeric stock
    for the type and appendable logs and patients, [request_blood] returns
    [True] exactly when the required amount is at most the stock; then the
    stock shrinks by the amount and the record is the new last patient,
    and otherwise nothing changes. *)
Theorem validated_request_needs_stock self ins self' rest ts today db q l ps :
  patient_data self ins = Some (self', rest) →
  current_quantity (Patient.blood_type self') db = Some q →
  sequence "logs" db = Some l → sequence "patients" db = Some ps →
  ∃ db',
    Patient.request_blood self' ts today db
    = Ok (bool_decide (Patient.required_amount self' ≤ q)) db'
    ∧ (Patient.required_amount self' ≤ q →
       sequence "patients" db'
       = Some (ps ++ [Patient.record self' today])%list
       ∧ current_quantity (Patient.blood_type self') db'
         = Some (q - Patient.required_amount self'))
    ∧ (q < Patient.required_amount self' → db' = db).
Proof.
  intros Hin Hq Hl Hps.
  destruct (patient_data_amount_type _ _ _ _ Hin) as [Ha Hv].
  apply valid_type_spec in Hv.
  destruct (quantity_shape _ _ _ Hq) as (m & inv & Hd & Hi & Hc).
  destruct (request_flow true false db (Patient.blood_type self')
              (Patient.required_amount self') ts
              (Patient.record self' today) q l ps Hq Hl Hps)
    as (ok & db1 & db' & Hrem & Hrun & Happ & Hno & Hyes).
  exists db'. unfold Patient.request_blood. simpl.
  destruct (decide (Patient.required_amount self' ≤ q)) as [Hle|Hgt].
  - pose proof (remove_blood_run db _ _ ts q l m inv Hv Ha Hle Hd Hi Hc Hl)
      as Hrem'. simpl in Hrem'. rewrite Hrem' in Hrem.
    injection Hrem as <- _. rewrite bool_decide_eq_true_2 by done.
    split; [exact Hrun|]. split; [|intros; lia]. intros _.
    split; [|by apply Hyes].
    destruct (proj2 Happ eq_refl) as (l0 & Hl0 & Hl1).
    rewrite Hps in Hl0. by injection Hl0 as <-.
  - rewrite (remove_blood_short db _ _ ts q Hv Ha ltac:(lia) Hq) in Hrem.
    injection Hrem as <- _. rewrite bool_decide_eq_false_2 by done.
    split; [exact Hrun|]. split; [intros; lia|]. intros _. by apply Hno.
Qed.

Lemma validated_request_needs_stock_witness :
  ∃ db',
    Patient.request_blood
      (Patient.mk "Nour" "nour@example.org" 41 8 "0111" "B+" 2500)
      "2025-01-01 10:00:00" "2025-01-01" (fresh Missing)
    = Ok (bool_decide
            (Patient.required_amount
               (Patient.mk "Nour" "nour@example.org" 41 8 "0111" "B+" 2500)
             ≤ 2000)) db'
    ∧ (Patient.required_amount
         (Patient.mk "Nour" "nour@example.org" 41 8 "0111" "B+" 2500) ≤ 2000 →
       sequence "patients" db'
       = Some ([] ++ [Patient.record
                        (Patient.mk "Nour" "nour@example.org" 41 8 "0111"
                           "B+" 2500) "2025-01-01"])%list
       ∧ current_quantity
           (Patient.blood_type
              (Patient.mk "Nour" "nour@example.org" 41 8 "0111" "B+" 2500))
           db'
         = Some (2000 - Patient.required_amount
                          (Patient.mk "Nour" "nour@example.org" 41 8 "0111"
                             "B+" 2500)))
    ∧ (2000 < Patient.required_amount
                (Patient.mk "Nour" "nour@example.org" 41 8 "0111" "B+" 2500) →
       db' = fresh Missing).
Proof.
  apply (validated_request_needs_stock
           (Patient.mk "Nour" "nour@example.org" 41 8 "0111" "" 0)
           [mkLine "-5" (Some (-5)); mkLine "2500" (Some 2500);
            mkLine "b+" None; mkLine "B+" None]
           _ [] "2025-01-01 10:00:00" "2025-01-01" (fresh Missing) 2000 [] []).
  - reflexivity.
  - vm_compute. reflexivity.
  - reflexivity.
  - reflexivity.
Defined.

(** ** The compatibility table *)

(** X14: the compatibility table has an entry for exactly the eight valid
    blood types, so [get_types] answers ["WRONG INPUT"] for the codes
    outside them and for no other; a patient whom [patient_data] accepted
    never gets that answer. *)
Theorem get_types_total :
  dom mapping = VALID_TYPES
  ∧ (∀ self,
       get_types self = "WRONG INPUT" ↔ Patient.blood_type self ∉ VALID_TYPES)
  ∧ (∀ self ins self' rest,
       patient_data self ins = Some (self', rest) →
       get_types self' ≠ "WRONG INPUT").
Proof.
  assert (dom mapping = VALID_TYPES) as Hdom.
  { unfold mapping, VALID_TYPES. simpl.
    rewrite !dom_insert_L, dom_empty_L.
    apply set_eq. intros x. rewrite !elem_of_union, !elem_of_singleton.
    rewrite elem_of_empty. tauto. }
  assert (∀ self,
            get_types self = "WRONG INPUT"
            ↔ Patient.blood_type self ∉ VALID_TYPES) as Hget.
  { intros self. unfold get_types. rewrite <- Hdom, not_elem_of_dom.
    split.
    - intros Hw. destruct (mapping !! Patient.blood_type self) as [s|] eqn:Hm;
        [|done]. simpl in Hw. subst s. exfalso.
      apply (elem_of_map_to_list mapping) in Hm. revert Hm.
      assert (map_to_list mapping ≡ₚ
                [ ("O-", "O-"); ("O+", "O-, O+"); ("A-", "O-, A-");
                  ("A+", "O-, O+, A-, A+"); ("B-", "O-, B-");
                  ("B+", "O-, O+, B-, B+"); ("AB-", "O-, A-, B-, AB-");
                  ("AB+", "All types") ]) as ->.
      { unfold mapping. apply map_to_list_to_map.
        simpl. repeat (constructor; [rewrite ?elem_of_cons, elem_of_nil;
                                      intros Hx; decompose [or] Hx; done|]).
        constructor. }
      rewrite !elem_of_cons, elem_of_nil.
      intros Hx; decompose [or] Hx; done.
    - by intros ->. }
  split; [done|]. split; [done|].
  intros self ins self' rest Hin Hw. apply Hget in Hw.
  by destruct (patient_data_amount_type _ _ _ _ Hin) as [_ Hv].
Qed.

(** ** The date of a donation *)

Lemma string_length_app (s1 s2 : string) :
  String.length (s1 ++ s2) = (String.length s1 + String.length s2)%nat.
Proof. induction s1 as [|c s1 IH]; simpl; [done|]. by rewrite IH. Qed.

Lemma fmt_0d_length (w : nat) (lo n : Z) :
  forallb (λ z, Nat.eqb (String.length (fmt_0d w z)) w) (seqZ lo n) = true →
  ∀ z, lo ≤ z < lo + n → String.length (fmt_0d w z) = w.
Proof.
  intros Hall z Hz. rewrite forallb_forall in Hall.
  apply Nat.eqb_eq, Hall, list_elem_of_In, elem_of_seqZ. lia.
Qed.

(** X15: for a day, month and year that [datetime] accepts, the date
    written into a donation record is ten characters long: four digits of
    year, a dash, two of month, a dash and two of day. *)
Theorem fmt_date_shape y m d :
  datetime_ok y m d = true →
  String.length (fmt_0d 4 y) = 4%nat
  ∧ String.length (fmt_0d 2 m) = 2%nat
  ∧ String.length (fmt_0d 2 d) = 2%nat
  ∧ String.length (fmt_date y m d) = 10%nat
  ∧ fmt_date y m d = fmt_0d 4 y ++ "-" ++ fmt_0d 2 m ++ "-" ++ fmt_0d 2 d.
Proof.
  unfold datetime_ok. rewrite !andb_true_iff, !bool_decide_eq_true.
  intros [[Hy Hm] Hd].
  assert (days_in_month y m ≤ 31) as Hdays.
  { unfold days_in_month. repeat case_bool_decide; destruct (is_leap y); lia. }
  assert (String.length (fmt_0d 4 y) = 4%nat) as Ly.
  { apply (fmt_0d_length 4 1 9999); [by vm_compute | lia]. }
  assert (String.length (fmt_0d 2 m) = 2%nat) as Lm.
  { apply (fmt_0d_length 2 1 12); [by vm_compute | lia]. }
  assert (String.length (fmt_0d 2 d) = 2%nat) as Ld.
  { apply (fmt_0d_length 2 1 31); [by vm_compute | lia]. }
  repeat split; try done.
  unfold fmt_date. rewrite !string_length_app, Ly, Lm, Ld. reflexivity.
Qed.

Lemma fmt_date_shape_witness :
  String.length (fmt_0d 4 2024) = 4%nat
  ∧ String.length (fmt_0d 2 2) = 2%nat
  ∧ String.length (fmt_0d 2 29) = 2%nat
  ∧ String.length (fmt_date 2024 2 29) = 10%nat
  ∧ fmt_date 2024 2 29 = fmt_0d 4 2024 ++ "-" ++ fmt_0d 2 2 ++ "-" ++ fmt_0d 2 29.
Proof. apply (fmt_date_shape 2024 2 29). reflexivity. Defined.

(** ** Low-stock alerts *)

Lemma collect_alerts_spec items :
  match collect_alerts items with
  | inr alerts =>
      Forall (λ kv, ∃ q, as_int kv.2 = inr q) items
      ∧ ∀ a, a ∈ alerts ↔
             ∃ t v q, (t, v) ∈ items ∧ as_int v = inr q
                      ∧ q < CRITICAL_THRESHOLD ∧ a = alert t v
  | inl e =>
      e = TypeError ∧ ∃ t v, (t, v) ∈ items ∧ as_int v = inl TypeError
  end.
Proof.
  induction items as [|[t v] items IH]; simpl.
  { split; [done|]. intros a. split; [by intros ?%elem_of_nil|].
    by intros (? & ? & ? & ?%elem_of_nil & _). }
  destruct (as_int v) as [e|q] eqn:Hv.
  { assert (e = TypeError) as -> by (destruct v; simpl in Hv; congruence).
    split; [done|]. exists t, v. split; [left|done]. }
  destruct (collect_alerts items) as [e|alerts].
  { destruct IH as [-> (t' & v' & Hin & Hv')]. split; [done|].
    exists t', v'. split; [by right|done]. }
  destruct IH as [Hall Hmem]. split; [constructor; [by exists q|done]|].
  intros a. case_bool_decide as Hlow.
  - rewrite elem_of_cons, Hmem. split.
    + intros [->|(t' & v' & q' & Hin & ?)].
      * exists t, v, q. split; [left|done].
      * exists t', v', q'. split; [by right|done].
    + intros (t' & v' & q' & Hin & Hv' & Hq' & ->).
      apply elem_of_cons in Hin as [[= -> ->]|Hin]; [by left|].
      right. by exists t', v', q'.
  - rewrite Hmem. split.
    + intros (t' & v' & q' & Hin & ?). exists t', v', q'.
      split; [by right|done].
    + intros (t' & v' & q' & Hin & Hv' & Hq' & ->).
      apply elem_of_cons in Hin as [[= -> ->]|Hin].
      * rewrite Hv in Hv'. injection Hv' as <-. done.
      * by exists t', v', q'.
Qed.

(** X16: the loop of [check_alerts] prints an alert for exactly the blood
    types whose amount is below 500 ml and returns [True] exactly when
    there is one; it raises [TypeError] exactly when some amount in the
    dict is no number. *)
Theorem check_alerts_flags_low_stock inv_map :
  match check_alerts inv_map with
  | inr (alerts, flagged) =>
      (∀ t v, inv_map !! t = Some v → ∃ q, as_int v = inr q)
      ∧ (∀ a, a ∈ alerts ↔
              ∃ t v q, inv_map !! t = Some v ∧ as_int v = inr q
                       ∧ q < CRITICAL_THRESHOLD ∧ a = alert t v)
      ∧ (flagged = true ↔
         ∃ t v q, inv_map !! t = Some v ∧ as_int v = inr q
                  ∧ q < CRITICAL_THRESHOLD)
  | inl e =>
      e = TypeError
      ∧ ∃ t v, inv_map !! t = Some v ∧ as_int v = inl TypeError
  end.
Proof.
  unfold check_alerts.
  pose proof (collect_alerts_spec (map_to_list inv_map)) as H.
  destruct (collect_alerts (map_to_list inv_map)) as [e|alerts].
  - destruct H as [-> (t & v & Hin & Hv)]. split; [done|].
    exists t, v. by rewrite <- elem_of_map_to_list.
  - destruct H as [Hall Hmem].
    assert (∀ a, a ∈ alerts ↔
              ∃ t v q, inv_map !! t = Some v ∧ as_int v = inr q
                       ∧ q < CRITICAL_THRESHOLD ∧ a = alert t v) as Hmem'.
    { intros a. rewrite Hmem. split;
        intros (t & v & q & Hin & ?); exists t, v, q;
        (split; [by apply elem_of_map_to_list|done]). }
    split; [|split; [done|]].
    + intros t v Hin. apply elem_of_map_to_list in Hin.
      rewrite Forall_forall in Hall. apply (Hall _ Hin).
    + rewrite bool_decide_eq_true. split.
      * intros Hne. destruct alerts as [|a alerts]; [done|].
        destruct (proj1 (Hmem' a)) as (t & v & q & ? & ? & ? & _); [left|].
        by exists t, v, q.
      * intros (t & v & q & Hin & Hv & Hq) ->.
        assert (alert t v ∈ []) as Hbad by (apply Hmem'; by exists t, v, q).
        by apply elem_of_nil in Hbad.
Qed.

(** ** Stock against records *)

Lemma sorted_types_list :
  sorted_types = ["A+"; "A-"; "AB+"; "AB-"; "B+"; "B-"; "O+"; "O-"].
Proof. by vm_compute. Qed.

Lemma sorted_types_elem t : t ∈ sorted_types ↔ t ∈ VALID_TYPES.
Proof.
  rewrite sorted_types_list. unfold VALID_TYPES.
  rewrite !elem_of_cons, elem_of_nil, !elem_of_union, !elem_of_singleton.
  tauto.
Qed.

Lemma sorted_types_NoDup : NoDup sorted_types.
Proof. rewrite sorted_types_list. apply (bool_decide_unpack _). by vm_compute. Qed.

Lemma sum_field_app field l1 l2 : ∀ acc,
  sum_field field (l1 ++ l2) acc
  = match sum_field field l1 acc with
    | inr acc' => sum_field field l2 acc'
    | inl e => inl e
    end.
Proof.
  induction l1 as [|d l1 IH]; intros acc; simpl; [done|].
  destruct (py_get field (JInt 0) d) as [e|x]; [done|].
  destruct (as_int x) as [e|z]; [done|]. apply IH.
Qed.

Lemma sum_field_shift field l : ∀ acc z,
  sum_field field l acc = inr z →
  ∀ k, sum_field field l (acc + k) = inr (z + k).
Proof.
  induction l as [|d l IH]; intros acc z; simpl.
  { intros [= <-] k. done. }
  destruct (py_get field (JInt 0) d) as [e|x]; [done|].
  destruct (as_int x) as [e|y]; [done|].
  intros Hrun k. replace (acc + k + y) with (acc + y + k) by lia.
  by apply IH.
Qed.

Lemma tally_app field l1 l2 : ∀ acc,
  tally field (l1 ++ l2) acc
  = match tally field l1 acc with
    | inr acc' => tally field l2 acc'
    | inl e => inl e
    end.
Proof.
  induction l1 as [|d l1 IH]; intros acc; simpl; [done|].
  destruct (py_get "blood_type" JNull d) as [e|[| | |bt| |]]; try done.
  destruct (acc !! bt) as [current|]; [|done].
  destruct (py_get field (JInt 0) d) as [e|x]; [done|].
  destruct (as_int x) as [e|z]; [done|]. apply IH.
Qed.

Lemma total_insert (D : gmap string Z) bt x a :
  D !! bt = Some x → bt ∈ VALID_TYPES →
  total (<[bt := x + a]> D) = total D + a.
Proof.
  intros Hb Hv. apply sorted_types_elem in Hv. unfold total.
  pose proof sorted_types_NoDup as Hnd.
  induction sorted_types as [|t ts IH]; [by apply elem_of_nil in Hv|].
  apply NoDup_cons in Hnd as [Hnt Hnd]. simpl.
  apply elem_of_cons in Hv as [<-|Hv].
  - assert (foldr (λ t acc, count (<[bt := x + a]> D) t + acc) 0 ts
            = foldr (λ t acc, count D t + acc) 0 ts) as ->.
    { clear IH Hnd. induction ts as [|t ts IH]; [done|]. simpl.
      apply not_elem_of_cons in Hnt as [Hne Hnt]. rewrite IH by done.
      unfold count. by rewrite lookup_insert_ne. }
    unfold count. rewrite lookup_insert_eq, Hb. simpl. lia.
  - rewrite IH by done.
    assert (bt ≠ t) as Hne by (intros ->; done).
    unfold count at 1 3. rewrite lookup_insert_ne by done. lia.
Qed.

Lemma count_insert (D : gmap string Z) bt x t :
  count (<[bt := x]> D) t = if decide (bt = t) then x else count D t.
Proof.
  unfold count. rewrite lookup_insert. by case_decide.
Qed.

Lemma balanced_fresh f : balanced (fresh f).
Proof.
  exists (filled ∅), default_inventory, [], [], [],
    (gset_to_gmap 0 VALID_TYPES), (gset_to_gmap 0 VALID_TYPES).
  assert (∀ t, t ∈ VALID_TYPES → count (gset_to_gmap 0 VALID_TYPES) t = 0)
    as Hc.
  { intros t Ht. unfold count.
    by rewrite (proj2 (lookup_gset_to_gmap_Some 0 VALID_TYPES t 0)). }
  assert (total (gset_to_gmap 0 VALID_TYPES) = 0) as Ht by by vm_compute.
  repeat (split; [try done; try (by rewrite Ht);
                  try apply dom_gset_to_gmap|]).
  intros t Hv. rewrite (Hc t Hv). by apply default_inventory_lookup.
Qed.

Lemma log_run db ts entry l m :
  data db = JObj m → sequence "logs" db = Some l →
  log ts entry db
  = Ok tt {| data := JObj (<["logs" :=
                              JArr (l ++ [JStr (ts ++ " - " ++ entry)])]> m);
             disk := Stored (JObj (<["logs" :=
                              JArr (l ++ [JStr (ts ++ " - " ++ entry)])]> m)) |}.
Proof.
  intros Hd Hl. unfold log, bind.
  by rewrite (record_run "logs" _ db l m Hd Hl).
Qed.

Lemma sequence_of_lookup key db m :
  data db = JObj m →
  sequence key db
  = match m !! key with
    | None => Some []
    | Some (JArr l) => Some l
    | Some _ => None
    end.
Proof. intros Hd. unfold sequence. by rewrite Hd. Qed.

(** The donation flow from the credit on, on a document the ledger can
    work on: the state it leaves after a credit that succeeds. *)
Lemma credit_flow_run {A} (yes no : A) db bt amount ts rec m inv q l ds :
  valid_type bt = true → 0 < amount →
  data db = JObj m → m !! "inventory" = Some (JObj inv) →
  as_int (default (JInt 0) (inv !! bt)) = inr q →
  sequence "logs" db = Some l → sequence "donors" db = Some ds →
  ∃ e,
    (let* ok := add_blood bt amount ts in
     if ok then do setdefault_append "donors" rec then do save then ret yes
     else ret no) db
    = Ok yes
        {| data := JObj (<["donors" := JArr (ds ++ [rec])]>
                     (<["logs" := JArr (l ++ [e])]>
                        (<["inventory" :=
                             JObj (<[bt := JInt (q + amount)]> inv)]> m)));
           disk := Stored
                     (JObj (<["donors" := JArr (ds ++ [rec])]>
                        (<["logs" := JArr (l ++ [e])]>
                           (<["inventory" :=
                                JObj (<[bt := JInt (q + amount)]> inv)]> m))))
        |}.
Proof.
  intros Hv Ha Hd Hi Hc Hl Hds.
  pose proof (add_blood_run db bt amount ts q l m inv Hv Ha Hd Hi Hc Hl)
    as Hadd. simpl in Hadd.
  eexists. unfold bind at 1. rewrite Hadd. unfold bind at 1.
  erewrite record_run; [|reflexivity|].
  2:{ rewrite !sequence_insert_other by done.
      rewrite (sequence_of_lookup _ _ _ Hd) in Hds.
      unfold sequence. simpl. exact Hds. }
  reflexivity.
Qed.

(** The request flow from the debit on: the state it leaves after a debit
    that succeeds. *)
Lemma debit_flow_run {A} (yes no : A) db bt amount ts rec m inv q l ps :
  valid_type bt = true → 0 < amount → amount ≤ q →
  data db = JObj m → m !! "inventory" = Some (JObj inv) →
  as_int (default (JInt 0) (inv !! bt)) = inr q →
  sequence "logs" db = Some l → sequence "patients" db = Some ps →
  ∃ e,
    (let* ok := remove_blood bt amount ts in
     if ok then do setdefault_append "patients" rec then do save then ret yes
     else ret no) db
    = Ok yes
        {| data := JObj (<["patients" := JArr (ps ++ [rec])]>
                     (<["logs" := JArr (l ++ [e])]>
                        (<["inventory" :=
                             JObj (<[bt := JInt (q - amount)]> inv)]> m)));
           disk := Stored
                     (JObj (<["patients" := JArr (ps ++ [rec])]>
                        (<["logs" := JArr (l ++ [e])]>
                           (<["inventory" :=
                                JObj (<[bt := JInt (q - amount)]> inv)]> m))))
        |}.
Proof.
  intros Hv Ha Hle Hd Hi Hc Hl Hps.
  pose proof (remove_blood_run db bt amount ts q l m inv Hv Ha Hle Hd Hi Hc Hl)
    as Hrem. simpl in Hrem.
  eexists. unfold bind at 1. rewrite Hrem. unfold bind at 1.
  erewrite record_run; [|reflexivity|].
  2:{ rewrite !sequence_insert_other by done.
      rewrite (sequence_of_lookup _ _ _ Hd) in Hps.
      unfold sequence. simpl. exact Hps. }
  reflexivity.
Qed.

Lemma tally_snoc field ds D0 D rec bt a x :
  tally field ds D0 = inr D →
  py_get "blood_type" JNull rec = inr (JStr bt) →
  py_get field (JInt 0) rec = inr (JInt a) →
  D !! bt = Some x →
  tally field (ds ++ [rec]) D0 = inr (<[bt := x + a]> D).
Proof.
  intros Ht Hb Hf Hx. rewrite tally_app, Ht. simpl.
  by rewrite Hb, Hx, Hf.
Qed.

Lemma sum_field_snoc field ds z rec a :
  sum_field field ds 0 = inr z →
  py_get field (JInt 0) rec = inr (JInt a) →
  sum_field field (ds ++ [rec]) 0 = inr (z + a).
Proof.
  intros Hs Hf. rewrite sum_field_app, Hs. simpl. by rewrite Hf.
Qed.

Lemma balanced_donation_flow {A} (yes no : A)
    db bt amount ts name email age id phone date :
  balanced db →
  balanced
    (state_of
       ((let* ok := add_blood bt amount ts in
         if ok then
           do setdefault_append "donors"
                (donor_rec name email age id phone amount bt date) then
           do save then ret yes
         else ret no) db)).
Proof.
  intros Hbal.
  destruct (rejected_or_valid bt amount) as [[Hv Ha]|Hrej].
  2:{ unfold bind. by rewrite add_blood_early. }
  destruct Hbal as (m & inv & l & ds & ps & D & R & Hd & Hi & Hl & Hds & Hps
                    & HD & HR & HsD & HsR & HdomD & HdomR & Hstock).
  assert (is_Some (D !! bt)) as [x Hx]
    by (apply elem_of_dom; by rewrite HdomD).
  pose proof (Hstock bt Hv) as Hq.
  destruct (credit_flow_run yes no db bt amount ts
              (donor_rec name email age id phone amount bt date)
              m inv _ l ds (proj2 (valid_type_spec bt) Hv) Ha Hd Hi
              ltac:(by rewrite Hq) Hl Hds) as [e ->].
  simpl.
  exists (<["donors" := JArr (ds ++ [donor_rec name email age id phone
                                       amount bt date])]>
            (<["logs" := JArr (l ++ [e])]>
               (<["inventory" :=
                    JObj (<[bt := JInt (2000 + count D bt - count R bt
                                        + amount)]> inv)]> m))),
    (<[bt := JInt (2000 + count D bt - count R bt + amount)]> inv),
    (l ++ [e])%list,
    (ds ++ [donor_rec name email age id phone amount bt date])%list,
    ps, (<[bt := x + amount]> D), R.
  rewrite (sequence_of_lookup _ _ _ Hd) in Hps.
  split; [done|].
  split; [by rewrite !lookup_insert_ne, lookup_insert_eq by done|].
  split; [unfold sequence; simpl;
          by rewrite lookup_insert_ne, lookup_insert_eq by done|].
  split; [apply sequence_insert_same|].
  split; [unfold sequence; simpl; by rewrite !lookup_insert_ne by done|].
  split; [by apply (tally_snoc _ _ _ D)|].
  split; [done|].
  split; [rewrite total_insert by done; by apply sum_field_snoc|].
  split; [done|].
  split; [rewrite dom_insert_lookup_L by done; done|].
  split; [done|].
  intros t Ht. rewrite count_insert. destruct (decide (bt = t)) as [<-|Hne].
  - rewrite lookup_insert_eq. unfold count. rewrite Hx. simpl.
    do 2 f_equal. lia.
  - rewrite lookup_insert_ne by done. by apply Hstock.
Qed.

Lemma balanced_request_flow {A} (yes no : A)
    db bt amount ts name email age id phone today :
  balanced db →
  balanced
    (state_of
       ((let* ok := remove_blood bt amount ts in
         if ok then
           do setdefault_append "patients"
                (patient_rec name email age id phone amount bt today) then
           do save then ret yes
         else ret no) db)).
Proof.
  intros Hbal.
  destruct (rejected_or_valid bt amount) as [[Hv Ha]|Hrej].
  2:{ unfold bind. by rewrite remove_blood_early. }
  pose proof Hbal as (m & inv & l & ds & ps & D & R & Hd & Hi & Hl & Hds & Hps
                    & HD & HR & HsD & HsR & HdomD & HdomR & Hstock).
  assert (is_Some (R !! bt)) as [x Hx]
    by (apply elem_of_dom; by rewrite HdomR).
  pose proof (Hstock bt Hv) as Hq.
  assert (as_int (default (JInt 0) (inv !! bt))
          = inr (2000 + count D bt - count R bt)) as Hc by by rewrite Hq.
  apply valid_type_spec in Hv.
  destruct (decide (amount ≤ 2000 + count D bt - count R bt)) as [Hle|Hgt].
  2:{ unfold bind.
      rewrite (remove_blood_short db bt amount ts
                 (2000 + count D bt - count R bt) Hv Ha ltac:(lia)
                 (quantity_of_shape _ _ _ _ _ Hd Hi Hc)). done. }
  destruct (debit_flow_run yes no db bt amount ts
              (patient_rec name email age id phone amount bt today)
              m inv _ l ps Hv Ha Hle Hd Hi Hc Hl Hps) as [e ->].
  simpl. apply valid_type_spec in Hv.
  exists (<["patients" := JArr (ps ++ [patient_rec name email age id phone
                                         amount bt today])]>
            (<["logs" := JArr (l ++ [e])]>
               (<["inventory" :=
                    JObj (<[bt := JInt (2000 + count D bt - count R bt
                                        - amount)]> inv)]> m))),
    (<[bt := JInt (2000 + count D bt - count R bt - amount)]> inv),
    (l ++ [e])%list, ds,
    (ps ++ [patient_rec name email age id phone amount bt today])%list,
    D, (<[bt := x + amount]> R).
  rewrite (sequence_of_lookup _ _ _ Hd) in Hds.
  split; [done|].
  split; [by rewrite !lookup_insert_ne, lookup_insert_eq by done|].
  split; [unfold sequence; simpl;
          by rewrite lookup_insert_ne, lookup_insert_eq by done|].
  split; [unfold sequence; simpl; by rewrite !lookup_insert_ne by done|].
  split; [apply sequence_insert_same|].
  split; [done|].
  split; [by apply (tally_snoc _ _ _ R)|].
  split; [done|].
  split; [rewrite total_insert by done; by apply sum_field_snoc|].
  split; [done|].
  split; [rewrite dom_insert_lookup_L by done; done|].
  intros t Ht. rewrite count_insert. destruct (decide (bt = t)) as [<-|Hne].
  - rewrite lookup_insert_eq. unfold count. rewrite Hx. simpl.
    do 2 f_equal. lia.
  - rewrite lookup_insert_ne by done. by apply Hstock.
Qed.

Lemma records_of_sequence key db m rs :
  data db = JObj m → sequence key db = Some rs →
  py_iter (default (JArr []) (m !! key)) = inr rs.
Proof.
  intros Hd Hs. rewrite (sequence_of_lookup _ _ _ Hd) in Hs.
  destruct (m !! key) as [[]|]; simpl in *; congruence.
Qed.

Lemma reports_page_run db ts m l ds ps D R :
  data db = JObj m → sequence "logs" db = Some l →
  sequence "donors" db = Some ds → sequence "patients" db = Some ps →
  tally "donated_amount" ds (gset_to_gmap 0 VALID_TYPES) = inr D →
  tally "required_amount" ps (gset_to_gmap 0 VALID_TYPES) = inr R →
  sum_field "donated_amount" ds 0 = inr (total D) →
  sum_field "required_amount" ps 0 = inr (total R) →
  reports_page ts db
  = Ok (mkReport (length ds) (total D) (length ps) (total R) (rows_of D R))
       {| data := JObj (<["logs" :=
                           JArr (l ++ [JStr (ts ++ " - "
                                   ++ "Generated comprehensive reports.")])]> m);
          disk := Stored (JObj (<["logs" :=
                           JArr (l ++ [JStr (ts ++ " - "
                                   ++ "Generated comprehensive reports.")])]> m))
       |}.
Proof.
  intros Hd Hl Hds Hps HD HR HsD HsR.
  pose proof (records_of_sequence _ _ _ _ Hd Hds) as Hds'.
  pose proof (records_of_sequence _ _ _ _ Hd Hps) as Hps'.
  pose proof (log_run db ts "Generated comprehensive reports." l m Hd Hl)
    as Hlog.
  destruct db as [d f]. simpl in Hd. subst d.
  unfold reports_page, bind, get_data, lift, ret. simpl.
  rewrite Hds'. rewrite HsD. rewrite Hps'. rewrite HsR.
  rewrite HD. rewrite HR. rewrite Hlog. reflexivity.
Qed.

Lemma balanced_log db ts entry : balanced db → balanced (state_of (log ts entry db)).
Proof.
  intros (m & inv & l & ds & ps & D & R & Hd & Hi & Hl & Hds & Hps
          & HD & HR & HsD & HsR & HdomD & HdomR & Hstock).
  rewrite (log_run db ts entry l m Hd Hl). simpl.
  rewrite (sequence_of_lookup _ _ _ Hd) in Hds.
  rewrite (sequence_of_lookup _ _ _ Hd) in Hps.
  exists (<["logs" := JArr (l ++ [JStr (ts ++ " - " ++ entry)])]> m),
    inv, (l ++ [JStr (ts ++ " - " ++ entry)])%list, ds, ps, D, R.
  split; [done|].
  split; [by rewrite lookup_insert_ne by done|].
  split; [apply sequence_insert_same|].
  split; [unfold sequence; simpl; by rewrite lookup_insert_ne by done|].
  split; [unfold sequence; simpl; by rewrite lookup_insert_ne by done|].
  done.
Qed.

Lemma state_of_try_except_ret {A} (body : M A) (a : A) db :
  state_of (try_except body (λ _, ret a) db) = state_of (body db).
Proof. unfold try_except. by destruct (body db). Qed.

Lemma balanced_perform a db :
  is_adjustment a = false → balanced db → balanced (perform a db).
Proof.
  intros Hflow Hbal. destruct a; simpl in *; try done.
  - by apply balanced_log.
  - unfold Donor.donate. destruct (valid_type bt); simpl; [|done].
    by apply balanced_donation_flow.
  - unfold Patient.request_blood. by apply balanced_request_flow.
  - unfold complete_donation. rewrite state_of_try_except_ret.
    destruct (truthy donor_name && truthy donor_email); [|done].
    by apply balanced_donation_flow.
  - unfold request_blood_button. rewrite state_of_try_except_ret.
    destruct (truthy patient_name && truthy patient_email); [|done].
    by apply balanced_request_flow.
  - pose proof Hbal as (m & inv & l & ds & ps & D & R & Hd & Hi & Hl & Hds
                        & Hps & HD & HR & HsD & HsR & _).
    rewrite (reports_page_run db timestamp m l ds ps D R) by done.
    pose proof (balanced_log db timestamp "Generated comprehensive reports."
                  Hbal) as H.
    by rewrite (log_run db timestamp _ l m Hd Hl) in H.
Qed.

Lemma balanced_perform_all acts : ∀ db,
  Forall (λ a, is_adjustment a = false) acts →
  balanced db → balanced (perform_all acts db).
Proof.
  induction acts as [|a acts IH]; intros db Hall Hbal; simpl; [done|].
  apply Forall_cons in Hall as [Ha Hall].
  apply IH; [done|]. by apply balanced_perform.
Qed.

(** X17: as long as the stock is changed only through the donation and
    request flows, of either front end, the books balance: after any
    sequence of them (with log entries and report pages in between) on a
    freshly defaulted document, the Reports page returns, its table has
    one row for each of the eight types in sorted order, and the stock of
    each type is its initial 2000 ml plus the net amount of its row (what
    the donor records give minus what the patient records take). *)
Theorem stock_balances_records f acts ts :
  Forall (λ a, is_adjustment a = false) acts →
  ∃ r db',
    reports_page ts (perform_all acts (fresh f)) = Ok r db'
    ∧ row_type <$> report_data r
      = ["A+"; "A-"; "AB+"; "AB-"; "B+"; "B-"; "O+"; "O-"]
    ∧ ∀ row, row ∈ report_data r →
        row_net row = row_donated row - row_requested row
        ∧ current_quantity (row_type row) (perform_all acts (fresh f))
          = Some (2000 + row_net row).
Proof.
  intros Hall.
  destruct (balanced_perform_all acts (fresh f) Hall (balanced_fresh f))
    as (m & inv & l & ds & ps & D & R & Hd & Hi & Hl & Hds & Hps
        & HD & HR & HsD & HsR & HdomD & HdomR & Hstock).
  eexists. eexists.
  split; [by apply (reports_page_run _ ts m l ds ps D R)|].
  simpl. unfold rows_of. split.
  - rewrite <- list_fmap_compose. rewrite <- sorted_types_list.
    apply list_fmap_id.
  - intros row Hrow. apply list_elem_of_fmap in Hrow as (bt & -> & Hbt).
    simpl. split; [done|]. apply sorted_types_elem in Hbt.
    apply (quantity_of_shape _ _ _ m inv); [done|done|].
    rewrite (Hstock bt Hbt). simpl. f_equal. lia.
Qed.

Lemma stock_balances_records_witness :
  ∃ r db',
    reports_page "2025-03-06 08:00:00"
      (perform_all
         [Donate sample_donor "O+" "2025-03-05 11:20:00";
          Request_blood
            (Patient.mk "Nour" "nour@example.org" 41 8 "0111" "O+" 2100)
            "2025-03-05 12:00:00" "2025-03-05"]
         (fresh Missing)) = Ok r db'
    ∧ row_type <$> report_data r
      = ["A+"; "A-"; "AB+"; "AB-"; "B+"; "B-"; "O+"; "O-"]
    ∧ ∀ row, row ∈ report_data r →
        row_net row = row_donated row - row_requested row
        ∧ current_quantity (row_type row)
            (perform_all
               [Donate sample_donor "O+" "2025-03-05 11:20:00";
                Request_blood
                  (Patient.mk "Nour" "nour@example.org" 41 8 "0111" "O+" 2100)
                  "2025-03-05 12:00:00" "2025-03-05"]
               (fresh Missing))
          = Some (2000 + row_net row).
Proof.
  apply (stock_balances_records Missing
           [Donate sample_donor "O+" "2025-03-05 11:20:00";
            Request_blood
              (Patient.mk "Nour" "nour@example.org" 41 8 "0111" "O+" 2100)
              "2025-03-05 12:00:00" "2025-03-05"]
           "2025-03-06 08:00:00").
  repeat constructor.
Defined.

Lemma total_rows D R :
  total D = foldr (λ row acc, row_donated row + acc) 0 (rows_of D R)
  ∧ total R = foldr (λ row acc, row_requested row + acc) 0 (rows_of D R).
Proof.
  unfold total, rows_of. by rewrite !foldr_fmap.
Qed.

(** X18: after any sequence of donation and request flows on a freshly
    defaulted document, the Reports page counts every donor and patient
    record, its two totals are the sums of the donated and of the
    requested column of its table, and all it changes is the logs, by the
    one entry ["<timestamp> - Generated comprehensive reports."]. *)
Theorem report_totals_match f acts ts :
  Forall (λ a, is_adjustment a = false) acts →
  ∃ r db' ds ps l,
    reports_page ts (perform_all acts (fresh f)) = Ok r db'
    ∧ sequence "donors" (perform_all acts (fresh f)) = Some ds
    ∧ sequence "patients" (perform_all acts (fresh f)) = Some ps
    ∧ sequence "logs" (perform_all acts (fresh f)) = Some l
    ∧ total_donors r = length ds ∧ total_patients r = length ps
    ∧ total_donated r
      = foldr (λ row acc, row_donated row + acc) 0 (report_data r)
    ∧ total_requested r
      = foldr (λ row acc, row_requested row + acc) 0 (report_data r)
    ∧ sequence "logs" db'
      = Some (l ++ [JStr (ts ++ " - Generated comprehensive reports.")])%list
    ∧ ∀ key, key ≠ "logs" →
             top key db' = top key (perform_all acts (fresh f)).
Proof.
  intros Hall.
  destruct (balanced_perform_all acts (fresh f) Hall (balanced_fresh f))
    as (m & inv & l & ds & ps & D & R & Hd & Hi & Hl & Hds & Hps
        & HD & HR & HsD & HsR & _).
  eexists. eexists. exists ds, ps, l.
  split; [by apply (reports_page_run _ ts m l ds ps D R)|].
  do 3 (split; [done|]). simpl.
  do 2 (split; [done|]).
  split; [apply total_rows|]. split; [apply total_rows|].
  split; [apply sequence_insert_same|].
  intros key Hne. unfold top. rewrite Hd. simpl.
  by rewrite lookup_insert_ne.
Qed.

Lemma report_totals_match_witness :
  ∃ r db' ds ps l,
    reports_page "2025-03-06 08:00:00"
      (perform_all [Donate sample_donor "O+" "2025-03-05 11:20:00"]
         (fresh Missing)) = Ok r db'
    ∧ sequence "donors"
        (perform_all [Donate sample_donor "O+" "2025-03-05 11:20:00"]
           (fresh Missing)) = Some ds
    ∧ sequence "patients"
        (perform_all [Donate sample_donor "O+" "2025-03-05 11:20:00"]
           (fresh Missing)) = Some ps
    ∧ sequence "logs"
        (perform_all [Donate sample_donor "O+" "2025-03-05 11:20:00"]
           (fresh Missing)) = Some l
    ∧ total_donors r = length ds ∧ total_patients r = length ps
    ∧ total_donated r
      = foldr (λ row acc, row_donated row + acc) 0 (report_data r)
    ∧ total_requested r
      = foldr (λ row acc, row_requested row + acc) 0 (report_data r)
    ∧ sequence "logs" db'
      = Some (l ++ [JStr ("2025-03-06 08:00:00"
                          ++ " - Generated comprehensive reports.")])%list
    ∧ ∀ key, key ≠ "logs" →
             top key db'
             = top key
                 (perform_all [Donate sample_donor "O+" "2025-03-05 11:20:00"]
                    (fresh Missing)).
Proof.
  apply (report_totals_match Missing
           [Donate sample_donor "O+" "2025-03-05 11:20:00"]
           "2025-03-06 08:00:00").
  repeat constructor.
Defined.

Lemma tally_dom field l : ∀ acc D,
  tally field l acc = inr D → dom D = dom acc.
Proof.
  induction l as [|d l IH]; intros acc D; simpl.
  { by intros [= <-]. }
  destruct (py_get "blood_type" JNull d) as [e|[| | |bt| |]]; try done;
    try apply IH.
  destruct (acc !! bt) as [current|] eqn:Hb; [|apply IH].
  destruct (py_get field (JInt 0) d) as [e|x]; [done|].
  destruct (as_int x) as [e|z]; [done|].
  intros Hrun. rewrite (IH _ _ Hrun). by apply dom_insert_lookup_L.
Qed.

(** X19: a record whose blood type is a string outside the eight valid
    codes is counted in the total of the Reports page and in none of the
    rows of its table: added at the end of the records, it raises the sum
    by its amount and leaves the table as it was. *)
Theorem unknown_type_in_total_only field records rec bt a D z :
  tally field records (gset_to_gmap 0 VALID_TYPES) = inr D →
  sum_field field records 0 = inr z →
  py_get "blood_type" JNull rec = inr (JStr bt) → bt ∉ VALID_TYPES →
  py_get field (JInt 0) rec = inr (JInt a) →
  tally field (records ++ [rec]) (gset_to_gmap 0 VALID_TYPES) = inr D
  ∧ sum_field field (records ++ [rec]) 0 = inr (z + a).
Proof.
  intros HD Hz Hb Hv Ha. split; [|by apply sum_field_snoc].
  rewrite tally_app, HD. simpl. rewrite Hb.
  assert (D !! bt = None) as ->; [|done].
  apply not_elem_of_dom. rewrite (tally_dom _ _ _ _ HD).
  by rewrite dom_gset_to_gmap.
Qed.

Lemma unknown_type_in_total_only_witness :
  tally "donated_amount"
    ([] ++ [donor_rec "Sam" "sam@example.org" 40 3 "0122" 300 "XX"
              "2025-01-01"])
    (gset_to_gmap 0 VALID_TYPES) = inr (gset_to_gmap 0 VALID_TYPES)
  ∧ sum_field "donated_amount"
      ([] ++ [donor_rec "Sam" "sam@example.org" 40 3 "0122" 300 "XX"
                "2025-01-01"]) 0 = inr (0 + 300).
Proof.
  apply (unknown_type_in_total_only "donated_amount" []
           (donor_rec "Sam" "sam@example.org" 40 3 "0122" 300 "XX"
              "2025-01-01") "XX" 300).
  - reflexivity.
  - reflexivity.
  - reflexivity.
  - apply valid_type_false. vm_compute. reflexivity.
  - reflexivity.
Defined.
